(** * Batch workout analyzer: temporal analysis pipeline

    A shallow embedding of [batch_analyzer.py]: the per-frame exercise
    classifier, the segment builder, the repetition counter, the
    consistency / stability / fatigue estimators and the session analysis
    that combines them.

    Python [float] is IEEE binary64, which is Rocq's primitive [float]:
    every arithmetic operation and comparison of the source is the
    primitive operation of the same name, and literals such as [0.15] denote
    the same binary64 value in both languages.  A landmark frame is a
    [Dict[str, (x, y, visibility)]], embedded as a [gmap string landmark];
    [Optional[Dict]] is [option].  Python's [int] is [Z], a list length is
    [nat].  Video decoding, the pose model and [np.mean] are outside the
    repository: the session analysis starts from the detected poses, and the
    estimators take the mean as a parameter. *)

From Stdlib Require Import ZArith String Bool Lia.
From Stdlib Require Import Floats.PrimFloat.
From stdpp Require Import gmap strings list.

Set Warnings "-inexact-float".
Local Open Scope string_scope.
Local Open Scope list_scope.
Local Open Scope nat_scope.

(** ** Data model *)

(** One landmark as [detect_pose_in_frame] stores it: [(x, y, visibility)]. *)
Definition landmark : Type := float * float * float.

Definition lm_x (l : landmark) : float := l.1.1.
Definition lm_y (l : landmark) : float := l.1.2.

(** A detected pose: landmark name to landmark. *)
Abbreviation Pose := (gmap string landmark).

(** A sampled frame: [None] is the no-observation marker. *)
Abbreviation Frame := (option Pose).

(** Python truthiness of an [Optional[Dict]]: [None] and the empty dict are
    falsy. *)
Definition falsy (pose : Frame) : bool :=
  match pose with
  | None => true
  | Some lm => bool_decide (lm = ∅)
  end.

(** The dict behind a frame that passed the truthiness test. *)
Definition the_pose (pose : Frame) : Pose := default ∅ pose.

(** Python's built-in [min] and [max] on two floats: the first argument is
    kept unless the second compares strictly smaller (resp. larger). *)
Definition py_min (a b : float) : float := if (b <? a)%float then b else a.
Definition py_max (a b : float) : float := if (a <? b)%float then b else a.

(** The exercise labels of the specification's closed label set. *)
Definition exercise_labels : list string :=
  ["squat"; "pushup"; "plank"; "standing"; "general_exercise"; "unknown"].

(** ** Exercise classifier *)

Module Classifier.
Local Open Scope float_scope.

(** [classify_exercise_from_pose].  The result is an [option]: [None] is
    Python's [None], returned when control runs off the end of the function.
    A [KeyError] raised inside the [try] block is the [None] of the inner
    option computation and is turned into ['unknown'] by the handler. *)
Definition classify_exercise_from_pose (landmarks : Frame) : option string :=
  if falsy landmarks then Some "unknown" else
  let lm := the_pose landmarks in
  default (Some "unknown")
    (left_shoulder ← lm !! "left_shoulder";
     right_shoulder ← lm !! "right_shoulder";
     left_hip ← lm !! "left_hip";
     right_hip ← lm !! "right_hip";
     left_knee ← lm !! "left_knee";
     right_knee ← lm !! "right_knee";
     let shoulder_y := (lm_y left_shoulder + lm_y right_shoulder) / 2 in
     let hip_y := (lm_y left_hip + lm_y right_hip) / 2 in
     let knee_y := (lm_y left_knee + lm_y right_knee) / 2 in
     Some
       (if (shoulder_y + 0.15 <? hip_y) && (hip_y - 0.1 <? knee_y)
        then Some "squat"
        else
          match (if abs (shoulder_y - hip_y) <? 0.2
                 then lm !! "left_wrist" else None) with
          | Some left_wrist =>
              let wrist_y := lm_y left_wrist in
              if abs (wrist_y - shoulder_y) <? 0.15
              then Some "pushup"
              else None
          | None =>
              if abs (shoulder_y - hip_y) <? 0.15
              then Some "plank"
              else Some "standing"
          end)).

End Classifier.
Export Classifier.


(** ** Repetition counter *)

Module RepCounter.
Local Open Scope float_scope.

(** The two heights the squat branch reads; [None] is the [KeyError] that
    makes the loop [continue]. *)
Definition squat_heights (pose : Pose) : option (float * float) :=
  left_hip ← pose !! "left_hip";
  right_hip ← pose !! "right_hip";
  left_knee ← pose !! "left_knee";
  right_knee ← pose !! "right_knee";
  Some ((lm_y left_hip + lm_y right_hip) / 2,
        (lm_y left_knee + lm_y right_knee) / 2).

(** [hip_y > knee_y - 0.05]: deep squat position. *)
Definition squat_deep (hip_y knee_y : float) : bool := knee_y - 0.05 <? hip_y.

(** [hip_y < knee_y - 0.15]: return to standing. *)
Definition squat_standing (hip_y knee_y : float) : bool := hip_y <? knee_y - 0.15.

(** The two heights the pushup branch reads. *)
Definition pushup_heights (pose : Pose) : option (float * float) :=
  left_shoulder ← pose !! "left_shoulder";
  left_wrist ← pose !! "left_wrist";
  Some (lm_y left_shoulder, lm_y left_wrist).

(** [abs(shoulder_y - wrist_y) < 0.1]: bottom position. *)
Definition pushup_bottom (shoulder_y wrist_y : float) : bool :=
  abs (shoulder_y - wrist_y) <? 0.1.

(** [abs(shoulder_y - wrist_y) > 0.2]: top position. *)
Definition pushup_top (shoulder_y wrist_y : float) : bool :=
  0.2 <? abs (shoulder_y - wrist_y).

(** The [if ... and not in_rep / elif ... and in_rep] pair shared by both
    exercise branches, on the loop state [(rep_count, in_rep)]. *)
Definition cycle (enter leave : bool) (st : Z * bool) : Z * bool :=
  let '(rep_count, in_rep) := st in
  if enter && negb in_rep then (rep_count, true)
  else if leave && in_rep then ((rep_count + 1)%Z, false)
  else st.

(** One iteration of the [for pose in poses] loop. *)
Definition rep_step (exercise_type : string) (st : Z * bool) (pose : Frame)
  : Z * bool :=
  if falsy pose then st
  else if String.eqb exercise_type "squat" then
    match squat_heights (the_pose pose) with
    | Some (hip_y, knee_y) =>
        cycle (squat_deep hip_y knee_y) (squat_standing hip_y knee_y) st
    | None => st
    end
  else if String.eqb exercise_type "pushup" then
    match pushup_heights (the_pose pose) with
    | Some (shoulder_y, wrist_y) =>
        cycle (pushup_bottom shoulder_y wrist_y) (pushup_top shoulder_y wrist_y) st
    | None => st
    end
  else st.

(** [count_reps_in_sequence]. *)
Definition count_reps_in_sequence (poses : list Frame) (exercise_type : string) : Z :=
  if String.eqb exercise_type "unknown" || Nat.eqb (length poses) 0 then 0%Z
  else (fold_left (rep_step exercise_type) poses (0%Z, false)).1.

End RepCounter.
Export RepCounter.

(** ** Form consistency, stability and fatigue *)

(** [poses[i-1], poses[i]] for [i] in [range(1, len(poses))]. *)
Definition adjacent {A} (l : list A) : list (A * A) := zip l (tail l).

(** Python's [l[start:]] for a possibly negative [start]. *)
Definition py_slice_from {A} (start : Z) (l : list A) : list A :=
  let n := Z.of_nat (length l) in
  drop (Z.to_nat (if (start <? 0)%Z then Z.max 0 (n + start) else start)) l.

(** Python's conversion of a non-negative [int] to [float], exact below
    [2^53]. *)
Fixpoint float_of_nat (n : nat) : float :=
  match n with
  | O => 0%float
  | S k => (float_of_nat k + 1)%float
  end.

(** [x ** 2] on a float. *)
Definition py_sq (x : float) : float := (x * x)%float.

Section Estimators.
Local Open Scope float_scope.

(** [np.mean] on a non-empty list of floats.  It belongs to numpy and is
    left abstract: nothing proved below depends on how it sums. *)
Variable np_mean : list float → float.

(** [abs(pose['left_shoulder'][0] - pose['right_shoulder'][0])]. *)
Definition shoulder_width (pose : Pose) : option float :=
  left_shoulder ← pose !! "left_shoulder";
  right_shoulder ← pose !! "right_shoulder";
  Some (abs (lm_x left_shoulder - lm_x right_shoulder)).

(** The body of the consistency loop for the pair [(poses[i-1], poses[i])]:
    [None] when the pair is skipped. *)
Definition pair_consistency (pair : Frame * Frame) : option float :=
  let '(prev, cur) := pair in
  if falsy cur || falsy prev then None
  else
    curr_shoulder_width ← shoulder_width (the_pose cur);
    prev_shoulder_width ← shoulder_width (the_pose prev);
    let consistency := 1.0 - abs (curr_shoulder_width - prev_shoulder_width) in
    Some (py_max 0.0 consistency).

(** [calculate_form_consistency]. *)
Definition calculate_form_consistency (poses : list Frame) (exercise_type : string)
  : float :=
  if Nat.eqb (length poses) 0 || String.eqb exercise_type "unknown" then 0.0
  else
    let consistencies := omap pair_consistency (adjacent poses) in
    match consistencies with
    | [] => 0.0
    | _ => np_mean consistencies
    end.

(** The body of the stability loop for the pair [(poses[i-1], poses[i])]. *)
Definition pair_movement (pair : Frame * Frame) : option float :=
  let '(prev, cur) := pair in
  if falsy cur || falsy prev then None
  else
    cur_nose ← the_pose cur !! "nose";
    prev_nose ← the_pose prev !! "nose";
    Some (sqrt (py_sq (lm_x cur_nose - lm_x prev_nose)
                + py_sq (lm_y cur_nose - lm_y prev_nose))).

(** [calculate_pose_stability]. *)
Definition calculate_pose_stability (poses : list Frame) : float :=
  if (length poses <? 2)%nat then 1.0
  else
    let movements := omap pair_movement (adjacent poses) in
    let avg_movement :=
      match movements with
      | [] => 0.0
      | _ => np_mean movements
      end in
    py_max 0.0 (1.0 - avg_movement * 10).

(** The dict returned by [detect_fatigue_indicators]; the two consistency
    keys are absent from the early return. *)
Record Fatigue := {
  fatigue_score : float;
  indicators : list string;
  early_consistency : option float;
  late_consistency : option float
}.

(** [detect_fatigue_indicators]. *)
Definition detect_fatigue_indicators (poses : list Frame) (exercise_type : string)
  : Fatigue :=
  if (length poses <? 10)%nat then
    {| fatigue_score := 0.0; indicators := [];
       early_consistency := None; late_consistency := None |}
  else
    let early_poses := take (length poses / 3) poses in
    let late_poses := py_slice_from (- Z.of_nat (length poses) / 3) poses in
    let early := calculate_form_consistency early_poses exercise_type in
    let late := calculate_form_consistency late_poses exercise_type in
    let '(fatigue_indicators, score) :=
      if late <? early - 0.15
      then (["Form degradation detected"], 0.0 + 0.3)
      else ([], 0.0) in
    let '(fatigue_indicators, score) :=
      if (5 <? length late_poses)%nat then
        let late_stability := calculate_pose_stability late_poses in
        let early_stability := calculate_pose_stability early_poses in
        if late_stability <? early_stability - 0.1
        then ((fatigue_indicators ++ ["Increased movement instability"])%list, score + 0.2)
        else (fatigue_indicators, score)
      else (fatigue_indicators, score) in
    {| fatigue_score := py_min score 1.0; indicators := fatigue_indicators;
       early_consistency := Some early; late_consistency := Some late |}.

End Estimators.

(** ** Exceptions *)

(** The exceptions the modelled code can raise: indexing a list out of
    range. *)
Inductive exn := IndexError.

(** A computation that returns a value or raises. *)
Inductive result (A : Type) :=
  | Ok (a : A)
  | Raise (e : exn).
Arguments Ok {A} a.
Arguments Raise {A} e.

#[global] Instance result_ret : MRet result := λ A a, Ok a.
#[global] Instance result_bind : MBind result := λ A B f m,
  match m with
  | Ok a => f a
  | Raise e => Raise e
  end.

(** [l[i]] for a non-negative index. *)
Definition py_index {A} (l : list A) (i : nat) : result A :=
  match l !! i with
  | Some a => Ok a
  | None => Raise IndexError
  end.

(** [l[-1]]. *)
Definition py_last {A} (l : list A) : result A :=
  match last l with
  | Some a => Ok a
  | None => Raise IndexError
  end.

(** ** Segment builder *)

Module SegmentBuilder.
Local Open Scope float_scope.

(** One entry of the list returned by [segment_workout_into_exercises]. *)
Record Segment := {
  exercise : string;
  start_time : float;
  end_time : float;
  duration : float;
  poses : list Frame;
  frame_count : nat
}.

(** The local variables of the loop. *)
Record Builder := {
  segments : list Segment;
  current_exercise : option string;
  segment_start : nat;
  segment_poses : list Frame
}.

(** Truthiness of [current_exercise]: [None] and the empty string are
    falsy, every other string (so ['unknown'] too) is truthy. *)
Definition truthy_label (current : option string) : option string :=
  match current with
  | Some label => if String.eqb label "" then None else Some label
  | None => None
  end.

(** The [if current_exercise and len(segment_poses) > 5] block inside the
    loop, at index [i]: the segment list after it.  The [else 0] of the
    duration is the integer zero. *)
Definition save_previous (timestamps : list float) (st : Builder) (i : nat)
  : result (list Segment) :=
  match truthy_label (current_exercise st) with
  | Some label =>
      if (5 <? length (segment_poses st))%nat then
        start ← py_index timestamps (segment_start st);
        stop ← (if (0 <? i)%nat then py_index timestamps (i - 1)
                else py_index timestamps (segment_start st));
        lasted ← (if (0 <? i)%nat then
                    t1 ← py_index timestamps (i - 1);
                    t0 ← py_index timestamps (segment_start st);
                    mret (t1 - t0)
                  else mret 0);
        mret (segments st ++
              [{| exercise := label; start_time := start; end_time := stop;
                  duration := lasted; poses := segment_poses st;
                  frame_count := length (segment_poses st) |}])%list
      else mret (segments st)
  | None => mret (segments st)
  end.

(** The [for i, pose in enumerate(poses)] loop, from index [i] on. *)
Fixpoint segment_loop (timestamps : list float) (i : nat) (rest : list Frame)
    (st : Builder) : result Builder :=
  match rest with
  | [] => mret st
  | pose :: rest' =>
      let exercise := classify_exercise_from_pose pose in
      if bool_decide (exercise ≠ current_exercise st) then
        saved ← save_previous timestamps st i;
        segment_loop timestamps (S i) rest'
          {| segments := saved; current_exercise := exercise;
             segment_start := i; segment_poses := [pose] |}
      else
        segment_loop timestamps (S i) rest'
          {| segments := segments st; current_exercise := current_exercise st;
             segment_start := segment_start st;
             segment_poses := (segment_poses st ++ [pose])%list |}
  end.

(** The [# Add final segment] block. *)
Definition add_final (timestamps : list float) (st : Builder)
  : result (list Segment) :=
  match truthy_label (current_exercise st) with
  | Some label =>
      if (5 <? length (segment_poses st))%nat then
        start ← py_index timestamps (segment_start st);
        stop ← py_last timestamps;
        t1 ← py_last timestamps;
        t0 ← py_index timestamps (segment_start st);
        mret (segments st ++
              [{| exercise := label; start_time := start; end_time := stop;
                  duration := t1 - t0; poses := segment_poses st;
                  frame_count := length (segment_poses st) |}])%list
      else mret (segments st)
  | None => mret (segments st)
  end.

(** [segment_workout_into_exercises]. *)
Definition segment_workout_into_exercises (poses : list Frame)
    (timestamps : list float) : result (list Segment) :=
  st ← segment_loop timestamps 0 poses
         {| segments := []; current_exercise := None;
            segment_start := 0; segment_poses := [] |};
  add_final timestamps st.

End SegmentBuilder.
Export SegmentBuilder.

(** ** Session analysis *)

(** [p is not None]. *)
Definition is_not_None (p : Frame) : bool :=
  match p with
  | Some _ => true
  | None => false
  end.

(** [exercise_counts.get(key, 0)] on a dict kept in insertion order. *)
Fixpoint dict_get (key : string) (d : list (string * Z)) : Z :=
  match d with
  | [] => 0
  | (k, v) :: d' => if String.eqb k key then v else dict_get key d'
  end.

(** [exercise_counts[key] = value]: an existing key keeps its position, a
    new one goes last. *)
Fixpoint dict_set (key : string) (value : Z) (d : list (string * Z))
  : list (string * Z) :=
  match d with
  | [] => [(key, value)]
  | (k, v) :: d' =>
      if String.eqb k key then (k, value) :: d' else (k, v) :: dict_set key value d'
  end.

Section Session.
Local Open Scope float_scope.

Variable np_mean : list float → float.

(** One entry of [detailed_analysis]. *)
Record SegmentAnalysis := {
  sa_exercise : string;
  sa_duration : float;
  sa_start_time : float;
  sa_end_time : float;
  reps_counted : Z;
  fatigue_analysis : Fatigue;
  sa_frame_count : nat
}.

Record SessionSummary := {
  total_duration : float;
  total_exercise_time : float;
  rest_time : float;
  total_reps : Z;
  exercises_performed : list string;
  exercise_breakdown : list (string * Z)
}.

Record VideoStats := {
  total_frames : Z;
  analyzed_frames : nat;
  pose_detection_rate : float
}.

Record Report := {
  session_summary : SessionSummary;
  detailed_analysis : list SegmentAnalysis;
  video_stats : VideoStats
}.

(** What [analyze_workout_session] returns: a dict with the single key
    ['error'], or the report. *)
Inductive Outcome :=
  | ErrorValue (message : string)
  | SessionReport (report : Report).

(** The [for segment in segments] loop: the analyses appended and the
    running [total_reps]. *)
Definition analyze_segment (acc : list SegmentAnalysis * Z) (segment : Segment)
  : list SegmentAnalysis * Z :=
  let '(segment_analysis, total) := acc in
  if String.eqb (exercise segment) "unknown" then acc
  else
    let reps := count_reps_in_sequence (poses segment) (exercise segment) in
    let fatigue := detect_fatigue_indicators np_mean (poses segment) (exercise segment) in
    ((segment_analysis ++
      [{| sa_exercise := exercise segment; sa_duration := duration segment;
          sa_start_time := start_time segment; sa_end_time := end_time segment;
          reps_counted := reps; fatigue_analysis := fatigue;
          sa_frame_count := frame_count segment |}])%list,
     (total + reps)%Z).

(** The [for analysis in segment_analysis] loop: [exercise_counts] and
    [total_exercise_time]. *)
Definition summarize_segment (acc : list (string * Z) * float)
    (analysis : SegmentAnalysis) : list (string * Z) * float :=
  let '(exercise_counts, exercise_time) := acc in
  (dict_set (sa_exercise analysis)
     (dict_get (sa_exercise analysis) exercise_counts + reps_counted analysis)%Z
     exercise_counts,
   exercise_time + sa_duration analysis).

(** [analyze_workout_session], from the point where the frames have been
    decoded and the pose model has run on each of them: [all_poses] holds
    one entry per extracted frame, [duration] and [frames_in_video] are the
    other two values returned by [extract_frames_from_video]. *)
Definition analyze_workout_session (all_poses : list Frame) (duration : float)
    (frames_in_video : Z) : result Outcome :=
  if Nat.eqb (length all_poses) 0 then
    mret (ErrorValue "No frames extracted from video")
  else
    let timestamps :=
      imap (λ i _, float_of_nat i * (duration / float_of_nat (length all_poses)))
           all_poses in
    let valid_poses := List.filter is_not_None all_poses in
    if (length valid_poses <? 10)%nat then
      mret (ErrorValue "Insufficient pose data for analysis")
    else
      segments ← segment_workout_into_exercises all_poses timestamps;
      let '(segment_analysis, reps) := fold_left analyze_segment segments ([], 0%Z) in
      let '(exercise_counts, exercise_time) :=
        fold_left summarize_segment segment_analysis ([], 0) in
      mret (SessionReport
        {| session_summary :=
             {| total_duration := duration;
                total_exercise_time := exercise_time;
                rest_time := duration - exercise_time;
                total_reps := reps;
                exercises_performed := exercise_counts.*1;
                exercise_breakdown := exercise_counts |};
           detailed_analysis := segment_analysis;
           video_stats :=
             {| total_frames := frames_in_video;
                analyzed_frames := length all_poses;
                pose_detection_rate :=
                  float_of_nat (length valid_poses) / float_of_nat (length all_poses) |} |}).

End Session.

(** ** Vocabulary of the statements *)

(** The number of valid (non-missing) frames of a sequence. *)
Definition valid_frames (poses : list Frame) : nat :=
  length (List.filter is_not_None poses).

(** The landmarks a rep detector reads are all present in the pose; labels
    without a detector require none. *)
Definition has_required (exercise_type : string) (pose : Pose) : bool :=
  if String.eqb exercise_type "squat" then bool_decide (is_Some (squat_heights pose))
  else if String.eqb exercise_type "pushup" then bool_decide (is_Some (pushup_heights pose))
  else true.

(** A valid frame whose required landmarks are all present. *)
Definition counts_for (exercise_type : string) (f : Frame) : bool :=
  match f with
  | Some pose => has_required exercise_type pose
  | None => false
  end.

(** The number of valid frames whose required landmarks are all present. *)
Definition evaluable_frames (exercise_type : string) (poses : list Frame) : nat :=
  length (List.filter (counts_for exercise_type) poses).

(** Twice the count plus one for a repetition in progress: the frames the
    state machine has consumed for its transitions. *)
Definition consumed (st : Z * bool) : Z :=
  (2 * st.1 + (if st.2 then 1 else 0))%Z.

(** A squat frame on which the given test of [(hip_y, knee_y)] succeeds. *)
Definition squat_frame (test : float → float → bool) (f : Frame) : bool :=
  negb (falsy f) &&
  match squat_heights (the_pose f) with
  | Some (hip_y, knee_y) => test hip_y knee_y
  | None => false
  end.

(** Standing, hip well above the knee: the return-to-standing test
    [hip_y < knee_y - 0.15] succeeds and the deep test [hip_y > knee_y - 0.05]
    does not. *)
Definition standing_frame : Frame → bool :=
  squat_frame (λ hip_y knee_y, squat_standing hip_y knee_y && negb (squat_deep hip_y knee_y)).

(** Deep, hip near the knee: the deep test [hip_y > knee_y - 0.05] succeeds
    and the return-to-standing test [hip_y < knee_y - 0.15] does not. *)
Definition deep_frame : Frame → bool :=
  squat_frame (λ hip_y knee_y, squat_deep hip_y knee_y && negb (squat_standing hip_y knee_y)).

(** A valid frame that contains the landmark [key]. *)
Definition frame_has (key : string) (f : Frame) : bool :=
  match f with
  | Some pose => bool_decide (is_Some (pose !! key))
  | None => false
  end.

(** Some pair of consecutive frames is valid on both sides and contains
    all of [keys] on both sides. *)
Definition some_adjacent_pair (keys : list string) (poses : list Frame) : bool :=
  existsb (λ pair, forallb (λ key, frame_has key pair.1 && frame_has key pair.2) keys)
          (adjacent poses).

(** Every timestamp is strictly smaller than every later one. *)
Fixpoint strictly_increasing (timestamps : list float) : bool :=
  match timestamps with
  | [] => true
  | t :: later => forallb (λ t', (t <? t')%float) later && strictly_increasing later
  end.

(** Some timestamp is not greater than an earlier one. *)
Definition non_monotonic (timestamps : list float) : Prop :=
  ∃ i j t t', i < j ∧ timestamps !! i = Some t ∧ timestamps !! j = Some t'
              ∧ (t <? t')%float = false.

(** Segment [s] starts at the timestamp of index [a] and ends at the
    timestamp of a later index [b]. *)
Definition seg_at (timestamps : list float) (s : Segment) (a b : nat) : Prop :=
  timestamps !! a = Some (start_time s) ∧ timestamps !! b = Some (end_time s) ∧ a < b.

(** The segments sit, in list order, at disjoint increasing index ranges
    inside [lo, hi). *)
Inductive placed (timestamps : list float) : nat → list Segment → nat → Prop :=
  | placed_nil (lo hi : nat) : lo ≤ hi → placed timestamps lo [] hi
  | placed_cons (lo hi : nat) s (a b : nat) rest :
      lo ≤ a → seg_at timestamps s a b → placed timestamps (S b) rest hi →
      placed timestamps lo (s :: rest) hi.

(** What every materialized segment satisfies, for labels in [L]: a
    non-empty label, more than five frames, the frame count of its pose list
    and the duration between its two timestamps. *)
Definition well_formed (L : string → Prop) (s : Segment) : Prop :=
  L (exercise s) ∧ exercise s ≠ "" ∧ 5 < frame_count s ∧
  frame_count s = length (poses s) ∧
  duration s = (end_time s - start_time s)%float.

(** The loop invariant of the segment builder before the frame of index
    [i]: the open run covers the indices from [segment_start] up to [i], and
    the segments saved so far lie before it. *)
Definition builder_inv (timestamps : list float) (L : string → Prop) (i : nat)
    (st : Builder) : Prop :=
  segment_start st + length (segment_poses st) = i ∧
  (∀ l, current_exercise st = Some l → L l) ∧
  placed timestamps 0 (segments st) (segment_start st) ∧
  Forall (well_formed L) (segments st).

(** ** Concrete inputs *)

(** A mean for evaluating examples: the sum in index order over the count.
    On a one-element list it is the element. *)
Definition mean_in_order (l : list float) : float :=
  (fold_left PrimFloat.add l 0 / float_of_nat (length l))%float.

(** A frame with shoulders, hips, knees and nose at the given heights. *)
Definition body (shoulder_y hip_y knee_y : float) : Frame :=
  Some (list_to_map
    [("nose", (0.5, 0.1, 1)%float);
     ("left_shoulder", (0.4, shoulder_y, 1)%float);
     ("right_shoulder", (0.6, shoulder_y, 1)%float);
     ("left_hip", (0.4, hip_y, 1)%float); ("right_hip", (0.6, hip_y, 1)%float);
     ("left_knee", (0.4, knee_y, 1)%float); ("right_knee", (0.6, knee_y, 1)%float)]).

(** Hip far above the knee. *)
Definition upright : Frame := body 0.2 0.5 0.8.

(** Hip almost at knee height. *)
Definition lowered : Frame := body 0.5 0.78 0.8.

(** A level torso (shoulders, hips and knees at the same height) with the
    left wrist far below the shoulders. *)
Definition level_torso_low_wrist : Pose :=
  <["left_wrist" := (0.4, 0.9, 1)%float]> (the_pose (body 0.5 0.5 0.5)).

(** Two observed frames followed by ten missing ones. *)
Definition two_then_missing : list Frame := [upright; upright] ++ replicate 10 None.

(** Six missing frames and their timestamps. *)
Definition six_missing : list Frame := replicate 6 None.
Definition six_seconds : list float := [0; 1; 2; 3; 4; 5]%float.

(** Six upright frames with timestamps running backwards. *)
Definition six_upright : list Frame := replicate 6 upright.
Definition backwards : list float := [5; 4; 3; 2; 1; 0]%float.

(** Six upright frames followed by six missing ones, one second apart. *)
Definition upright_then_missing : list Frame := replicate 6 upright ++ replicate 6 None.
Definition twelve_seconds : list float := [0; 1; 2; 3; 4; 5; 6; 7; 8; 9; 10; 11]%float.

(** Twelve missing frames. *)
Definition twelve_missing : list Frame := replicate 12 None.

(** One squat cycle: standing, deep, standing, five frames each. *)
Definition one_squat : list Frame :=
  replicate 5 upright ++ replicate 5 lowered ++ replicate 5 upright.

(** A frame that lacks the nose and the right shoulder. *)
Definition half_seen : Frame :=
  Some (list_to_map [("left_shoulder", (0.4, 0.2, 1)%float)]).

(** ** Frame sampling and landmark extraction *)

(** The [while True] loop of [extract_frames_from_video] over the frames
    that [cap.read()] delivers before it first fails.  [None] is the
    [ZeroDivisionError] of [frame_count % sample_rate]; Python's [%] takes
    the sign of the divisor, as [Z.modulo] does. *)
Fixpoint sample_loop {A} (sample_rate : Z) (video : list A)
    (frames : list A) (frame_count : nat) : option (list A * nat) :=
  match video with
  | [] => Some (frames, frame_count)
  | frame :: video' =>
      if (sample_rate =? 0)%Z then None
      else
        sample_loop sample_rate video'
          (if (Z.of_nat frame_count mod sample_rate =? 0)%Z
           then frames ++ [frame] else frames)
          (S frame_count)
  end.

(** [extract_frames_from_video]: [video] is the decoded stream and [fps]
    the value of [cap.get(cv2.CAP_PROP_FPS)]; the result is
    [(frames, total_duration, frame_count)]. *)
Definition extract_frames_from_video {A} (video : list A) (fps : float)
    (sample_rate : Z) : option (list A * float * nat) :=
  '(frames, frame_count) ← sample_loop sample_rate video [] 0;
  let total_duration :=
    if (0 <? fps)%float then (float_of_nat frame_count / fps)%float else 0%float in
  Some (frames, total_duration, frame_count).

(** The [landmark_map] of [detect_pose_in_frame]. *)
Definition landmark_map : list (string * nat) :=
  [("nose", 0); ("left_shoulder", 11); ("right_shoulder", 12);
   ("left_elbow", 13); ("right_elbow", 14); ("left_wrist", 15); ("right_wrist", 16);
   ("left_hip", 23); ("right_hip", 24); ("left_knee", 25); ("right_knee", 26);
   ("left_ankle", 27); ("right_ankle", 28)].

(** The [for name, idx in landmark_map.items()] loop over the landmark list
    of the pose model. *)
Definition extract_landmarks (found : list landmark) : Pose :=
  fold_left (λ landmarks entry,
               match found !! entry.2 with
               | Some l => <[entry.1 := l]> landmarks
               | None => landmarks
               end)
            landmark_map ∅.

(** [detect_pose_in_frame], from the output of the pose model on the frame:
    [pose_landmarks] is [results.pose_landmarks], [None] when no pose was
    found, and otherwise its [landmark] list as [(x, y, visibility)]. *)
Definition detect_pose_in_frame (pose_landmarks : option (list landmark)) : Frame :=
  match pose_landmarks with
  | None => None
  | Some found => Some (extract_landmarks found)
  end.

(** ** Further vocabulary *)

(** The landmarks the classifier reads. *)
Definition classifier_required : list string :=
  ["left_shoulder"; "right_shoulder"; "left_hip"; "right_hip"; "left_knee"; "right_knee"].

(** A pushup frame on which the given test of [(shoulder_y, wrist_y)]
    succeeds. *)
Definition pushup_frame (test : float → float → bool) (f : Frame) : bool :=
  negb (falsy f) &&
  match pushup_heights (the_pose f) with
  | Some (shoulder_y, wrist_y) => test shoulder_y wrist_y
  | None => false
  end.

(** Bottom of a pushup: the bottom test succeeds and the top test does not. *)
Definition bottom_frame : Frame → bool :=
  pushup_frame (λ s w, pushup_bottom s w && negb (pushup_top s w)).

(** Top of a pushup: the top test succeeds and the bottom test does not. *)
Definition top_frame : Frame → bool :=
  pushup_frame (λ s w, pushup_top s w && negb (pushup_bottom s w)).

(** A sequence of movement cycles, each a run of frames in the active
    position followed by a run of frames in the rest position. *)
Definition cycles_frames (cycles : list (list Frame * list Frame)) : list Frame :=
  concat ((λ c, c.1 ++ c.2) <$> cycles).

(** Each cycle has at least one frame of either kind, recognized by the two
    tests. *)
Definition full_cycles (active rest : Frame → bool)
    (cycles : list (list Frame * list Frame)) : Prop :=
  Forall (λ c, c.1 ≠ [] ∧ c.2 ≠ [] ∧
               Forall (λ f, active f = true) c.1 ∧
               Forall (λ f, rest f = true) c.2) cycles.

(** The sum of the rep counts of a list of segment analyses, and the sum
    for one label. *)
Definition sum_reps (analyses : list SegmentAnalysis) : Z :=
  fold_right (λ a total, (reps_counted a + total)%Z) 0%Z analyses.

Definition sum_reps_for (label : string) (analyses : list SegmentAnalysis) : Z :=
  sum_reps (List.filter (λ a, String.eqb (sa_exercise a) label) analyses).

(** The number of frames held by a list of segments. *)
Definition frames_held (segs : list Segment) : nat :=
  foldr (λ s total, frame_count s + total) 0 segs.

(** ** Further concrete inputs *)

(** A pushup frame with the shoulder and the wrist at the given heights. *)
Definition arms (shoulder_y wrist_y : float) : Frame :=
  Some (list_to_map
    [("left_shoulder", (0.4, shoulder_y, 1)%float);
     ("left_wrist", (0.4, wrist_y, 1)%float)]).

(** Shoulder at wrist height, and shoulder far above the wrist. *)
Definition pressed : Frame := arms 0.75 0.8.
Definition raised : Frame := arms 0.4 0.8.

(** A full 33-landmark result of the pose model, all at one point. *)
Definition full_result : list landmark := replicate 33 (0.5, 0.5, 1)%float.

(** * Properties *)

(** ** Exercise classifier *)

(** Every branch of the classifier that returns at all returns one of five
    labels. *)
Lemma classify_cases (landmarks : Frame) :
  classify_exercise_from_pose landmarks = None ∨
  ∃ l, classify_exercise_from_pose landmarks = Some l ∧
       l ∈ ["squat"; "pushup"; "plank"; "standing"; "unknown"].
Proof.
  unfold classify_exercise_from_pose.
  destruct (falsy landmarks); [right; eexists; split; [done | set_solver] |].
  destruct (the_pose landmarks !! "left_shoulder") as [ls|]; simpl;
    [| right; eexists; split; [done | set_solver]].
  destruct (the_pose landmarks !! "right_shoulder") as [rs|]; simpl;
    [| right; eexists; split; [done | set_solver]].
  destruct (the_pose landmarks !! "left_hip") as [lh|]; simpl;
    [| right; eexists; split; [done | set_solver]].
  destruct (the_pose landmarks !! "right_hip") as [rh|]; simpl;
    [| right; eexists; split; [done | set_solver]].
  destruct (the_pose landmarks !! "left_knee") as [lk|]; simpl;
    [| right; eexists; split; [done | set_solver]].
  destruct (the_pose landmarks !! "right_knee") as [rk|]; simpl;
    [| right; eexists; split; [done | set_solver]].
  repeat match goal with
         | |- context [if ?b then _ else _] => destruct b
         | |- context [match ?o with Some _ => _ | None => _ end] => destruct o
         end;
    first [by left | right; eexists; split; [done | set_solver]].
Qed.

(** A missing frame is classified ['unknown']. *)
Lemma classify_missing : classify_exercise_from_pose None = Some "unknown".
Proof. reflexivity. Qed.

(** C1 (evaluated at the failing input): on a frame with a level torso and
    the left wrist far from shoulder height the classifier enters the pushup
    branch, fails its inner wrist test and runs off the end of the function,
    so it returns Python's [None], which is no member of the label set. *)
Theorem classify_falls_through :
  classify_exercise_from_pose (Some level_torso_low_wrist) = None
  ∧ ∀ l, l ∈ exercise_labels →
         classify_exercise_from_pose (Some level_torso_low_wrist) ≠ Some l.
Proof.
  assert (H : classify_exercise_from_pose (Some level_torso_low_wrist) = None)
    by (vm_compute; reflexivity).
  split; [exact H |]. intros l _. rewrite H. discriminate.
Qed.

(** ** Repetition counter *)

(** The [if / elif] pair makes at most one transition, and a transition
    consumes exactly one unit. *)
Lemma cycle_consumed enter leave st :
  (st.1 ≤ (cycle enter leave st).1)%Z ∧
  (consumed (cycle enter leave st) ≤ consumed st + 1)%Z.
Proof.
  destruct st as [c []]; unfold cycle, consumed;
    destruct enter, leave; simpl; lia.
Qed.

(** One loop iteration never lowers the count, and it consumes a unit only
    on a frame whose required landmarks are present. *)
Lemma rep_step_consumed exercise_type st f :
  (st.1 ≤ (rep_step exercise_type st f).1)%Z ∧
  (consumed (rep_step exercise_type st f)
   ≤ consumed st + (if counts_for exercise_type f then 1 else 0))%Z.
Proof.
  unfold rep_step, counts_for, has_required.
  destruct f as [pose|]; simpl; [| lia].
  destruct (bool_decide (pose = ∅)); [destruct (_ : bool); lia |].
  destruct (String.eqb exercise_type "squat").
  - destruct (squat_heights pose) as [[h k]|] eqn:E.
    + rewrite bool_decide_eq_true_2 by eauto. apply cycle_consumed.
    + destruct (bool_decide _); lia.
  - destruct (String.eqb exercise_type "pushup"); [| lia].
    destruct (pushup_heights pose) as [[s w]|] eqn:E.
    + rewrite bool_decide_eq_true_2 by eauto. apply cycle_consumed.
    + destruct (bool_decide _); lia.
Qed.

(** The loop as a whole. *)
Lemma rep_loop_consumed exercise_type poses st :
  (st.1 ≤ (fold_left (rep_step exercise_type) poses st).1)%Z ∧
  (consumed (fold_left (rep_step exercise_type) poses st)
   ≤ consumed st + Z.of_nat (evaluable_frames exercise_type poses))%Z.
Proof.
  revert st. induction poses as [|f poses IH]; intros st; simpl.
  - unfold evaluable_frames; simpl. lia.
  - destruct (IH (rep_step exercise_type st f)) as [IH1 IH2].
    destruct (rep_step_consumed exercise_type st f) as [S1 S2].
    unfold evaluable_frames in *. simpl.
    destruct (counts_for exercise_type f); simpl; lia.
Qed.

(** Frames with their required landmarks are valid frames. *)
Lemma evaluable_le_valid exercise_type poses :
  evaluable_frames exercise_type poses ≤ valid_frames poses.
Proof.
  unfold evaluable_frames, valid_frames.
  induction poses as [|[pose|] poses IH]; simpl; [lia | | lia].
  destruct (has_required exercise_type pose); simpl; lia.
Qed.

(** The count and the bound on it, for every sequence and label. *)
Lemma count_reps_bounds poses exercise_type :
  (0 ≤ count_reps_in_sequence poses exercise_type)%Z ∧
  (2 * count_reps_in_sequence poses exercise_type
   ≤ Z.of_nat (evaluable_frames exercise_type poses))%Z.
Proof.
  unfold count_reps_in_sequence.
  destruct (String.eqb exercise_type "unknown" || Nat.eqb (length poses) 0); [lia |].
  destruct (rep_loop_consumed exercise_type poses (0%Z, false)) as [H1 H2].
  unfold consumed in H2. simpl in *.
  destruct (fold_left (rep_step exercise_type) poses (0%Z, false)) as [c []];
    simpl in *; lia.
Qed.

(** C6: the rep counter returns a non-negative integer for every pose
    sequence and every label, and exactly 0 for every sequence with fewer
    than 2 valid (non-missing) frames. *)
Theorem count_reps_nonneg_and_zero_below_two (poses : list Frame) (exercise_type : string) :
  (0 ≤ count_reps_in_sequence poses exercise_type)%Z ∧
  (valid_frames poses < 2 → count_reps_in_sequence poses exercise_type = 0%Z).
Proof.
  destruct (count_reps_bounds poses exercise_type) as [H0 H2].
  split; [exact H0 |]. intros Hv.
  pose proof (evaluable_le_valid exercise_type poses). lia.
Qed.

Lemma count_reps_nonneg_and_zero_below_two_witness :
  valid_frames [None; lowered; None] < 2 ∧
  (0 ≤ count_reps_in_sequence [None; lowered; None] "squat")%Z ∧
  count_reps_in_sequence [None; lowered; None] "squat" = 0%Z.
Proof.
  assert (Hv : valid_frames [None; lowered; None] < 2) by (vm_compute; lia).
  destruct (count_reps_nonneg_and_zero_below_two [None; lowered; None] "squat")
    as [H0 Hz].
  split; [exact Hv |]. split; [exact H0 | exact (Hz Hv)].
Defined.

(** C10: the rep count is at most floor(v / 2), where v is the number of
    valid frames of the sequence whose required landmarks for the exercise
    are all present: each counted repetition consumes one such frame for the
    rest-to-active transition and another for the active-to-rest one. *)
Theorem count_reps_at_most_half_evaluable (poses : list Frame) (exercise_type : string) :
  (count_reps_in_sequence poses exercise_type
   ≤ Z.of_nat (evaluable_frames exercise_type poses / 2))%Z.
Proof.
  destruct (count_reps_bounds poses exercise_type) as [_ H2].
  pose proof (Nat.div_mod_eq (evaluable_frames exercise_type poses) 2) as D.
  pose proof (Nat.mod_upper_bound (evaluable_frames exercise_type poses) 2).
  lia.
Qed.

(** On a standing frame the machine leaves a repetition in progress, counting
    it, and otherwise stays at rest. *)
Lemma rep_step_standing f c in_rep :
  standing_frame f = true →
  rep_step "squat" (c, in_rep) f = (if in_rep then (c + 1)%Z else c, false).
Proof.
  unfold standing_frame, squat_frame, rep_step. intros H.
  apply andb_true_iff in H as [Hf H]. apply negb_true_iff in Hf. rewrite Hf.
  simpl. destruct (squat_heights (the_pose f)) as [[h k]|]; [| discriminate].
  apply andb_true_iff in H as [Hs Hd]. apply negb_true_iff in Hd.
  unfold cycle. rewrite Hs, Hd. by destruct in_rep.
Qed.

(** On a deep frame the machine enters a repetition, or stays in it. *)
Lemma rep_step_deep f c in_rep :
  deep_frame f = true → rep_step "squat" (c, in_rep) f = (c, true).
Proof.
  unfold deep_frame, squat_frame, rep_step. intros H.
  apply andb_true_iff in H as [Hf H]. apply negb_true_iff in Hf. rewrite Hf.
  simpl. destruct (squat_heights (the_pose f)) as [[h k]|]; [| discriminate].
  apply andb_true_iff in H as [Hd Hs]. apply negb_true_iff in Hs.
  unfold cycle. rewrite Hs, Hd. by destruct in_rep.
Qed.

(** A run of standing frames met at rest changes nothing. *)
Lemma standing_run_at_rest run c :
  Forall (λ f, standing_frame f = true) run →
  fold_left (rep_step "squat") run (c, false) = (c, false).
Proof.
  induction 1 as [|f run Hf _ IH]; simpl; [done |].
  by rewrite (rep_step_standing f c false Hf).
Qed.

(** A non-empty run of standing frames met in a repetition completes it. *)
Lemma standing_run_in_rep run c :
  run ≠ [] → Forall (λ f, standing_frame f = true) run →
  fold_left (rep_step "squat") run (c, true) = ((c + 1)%Z, false).
Proof.
  intros Hne Hrun. destruct Hrun as [|f run Hf Hrun]; [done |]. simpl.
  rewrite (rep_step_standing f c true Hf). by apply standing_run_at_rest.
Qed.

(** A non-empty run of deep frames leaves the machine in a repetition,
    without counting. *)
Lemma deep_run run c in_rep :
  run ≠ [] → Forall (λ f, deep_frame f = true) run →
  fold_left (rep_step "squat") run (c, in_rep) = (c, true).
Proof.
  intros Hne Hrun. revert in_rep.
  induction Hrun as [|f run Hf Hrun IH]; [done |]. intros in_rep. simpl.
  rewrite (rep_step_deep f c in_rep Hf).
  destruct run as [|g run]; [done |]. by apply IH.
Qed.

(** C7: a 15-frame squat sequence made of 5 standing frames (hip above the
    knee by more than the exit margin), then 5 deep frames (hip within the
    entry margin of the knee), then 5 standing frames again yields a rep
    count of exactly 1. *)
Theorem one_squat_cycle_counts_one (up1 down up2 : list Frame) :
  length up1 = 5 → length down = 5 → length up2 = 5 →
  Forall (λ f, standing_frame f = true) up1 →
  Forall (λ f, deep_frame f = true) down →
  Forall (λ f, standing_frame f = true) up2 →
  count_reps_in_sequence (up1 ++ down ++ up2) "squat" = 1%Z.
Proof.
  intros L1 L2 L3 H1 H2 H3. unfold count_reps_in_sequence.
  replace (Nat.eqb (length (up1 ++ down ++ up2)) 0) with false
    by (rewrite !length_app, L1, L2, L3; reflexivity).
  simpl. rewrite !fold_left_app.
  rewrite (standing_run_at_rest up1 0 H1).
  rewrite (deep_run down 0 false) by (try done; by destruct down).
  rewrite (standing_run_in_rep up2 0) by (try done; by destruct up2).
  reflexivity.
Qed.

Lemma one_squat_cycle_counts_one_witness :
  count_reps_in_sequence one_squat "squat" = 1%Z.
Proof.
  apply (one_squat_cycle_counts_one (replicate 5 upright) (replicate 5 lowered)
           (replicate 5 upright));
    try reflexivity;
    repeat (constructor; [vm_compute; reflexivity |]); constructor.
Defined.

(** ** Form consistency, stability and fatigue *)

Section EstimatorProperties.
Local Open Scope float_scope.

Variable np_mean : list float → float.

(** A pair contributes a movement only if both frames hold the nose. *)
Lemma pair_movement_has_nose pair m :
  pair_movement pair = Some m →
  frame_has "nose" pair.1 && frame_has "nose" pair.2 = true.
Proof.
  destruct pair as [prev cur]. unfold pair_movement, frame_has. simpl.
  destruct (falsy cur || falsy prev) eqn:F; [discriminate |].
  apply orb_false_iff in F as [Fc Fp].
  destruct cur as [cur|]; [| discriminate]. destruct prev as [prev|]; [| discriminate].
  simpl. destruct (cur !! "nose"); [| discriminate].
  destruct (prev !! "nose"); [| discriminate]. intros _.
  rewrite !bool_decide_eq_true_2 by eauto. reflexivity.
Qed.

(** A pair contributes a consistency only if both frames hold both
    shoulders. *)
Lemma pair_consistency_has_shoulders pair c :
  pair_consistency pair = Some c →
  forallb (λ key, frame_has key pair.1 && frame_has key pair.2)
    ["left_shoulder"; "right_shoulder"] = true.
Proof.
  destruct pair as [prev cur]. unfold pair_consistency, shoulder_width, frame_has.
  simpl. destruct (falsy cur || falsy prev) eqn:F; [discriminate |].
  apply orb_false_iff in F as [Fc Fp].
  destruct cur as [cur|]; [| discriminate]. destruct prev as [prev|]; [| discriminate].
  simpl.
  destruct (cur !! "left_shoulder"); [| discriminate].
  destruct (cur !! "right_shoulder"); [| discriminate].
  destruct (prev !! "left_shoulder"); [| discriminate].
  destruct (prev !! "right_shoulder"); [| discriminate]. intros _.
  rewrite !bool_decide_eq_true_2 by eauto. reflexivity.
Qed.

(** No qualifying pair: the loop appends nothing. *)
Lemma omap_no_pair {A} (f : Frame * Frame → option A) keys poses :
  (∀ pair a, f pair = Some a →
     forallb (λ key, frame_has key pair.1 && frame_has key pair.2) keys = true) →
  some_adjacent_pair keys poses = false →
  omap f (adjacent poses) = [].
Proof.
  intros Hf. unfold some_adjacent_pair.
  induction (adjacent poses) as [|pair pairs IH]; simpl; [done |].
  intros H. apply orb_false_iff in H as [Hp Hps].
  destruct (f pair) as [a|] eqn:E.
  - rewrite (Hf pair a E) in Hp. discriminate.
  - by apply IH.
Qed.

(** C9: for every pose list with fewer than 2 entries, and for every pose
    list in which no pair of consecutive valid frames both contain the nose,
    the pose stability is exactly 1.0; the form consistency of a list with no
    pair of consecutive valid frames that both contain the two shoulders is,
    in contrast, 0.0. *)
Theorem stability_one_consistency_zero_without_pairs
    (poses : list Frame) (exercise_type : string) :
  (length poses < 2 ∨ some_adjacent_pair ["nose"] poses = false →
   calculate_pose_stability np_mean poses = 1.0) ∧
  (some_adjacent_pair ["left_shoulder"; "right_shoulder"] poses = false →
   calculate_form_consistency np_mean poses exercise_type = 0.0).
Proof.
  split.
  - intros H. unfold calculate_pose_stability.
    destruct (Nat.ltb_spec (length poses) 2) as [Hlt|Hge]; [done |].
    destruct H as [H|H]; [lia |].
    rewrite (omap_no_pair pair_movement ["nose"] poses); [reflexivity | | exact H].
    intros pair m E. simpl. rewrite (pair_movement_has_nose pair m E). reflexivity.
  - intros H. unfold calculate_form_consistency.
    destruct (_ || _); [done |].
    rewrite (omap_no_pair pair_consistency ["left_shoulder"; "right_shoulder"] poses);
      [reflexivity | | exact H].
    intros pair c E. exact (pair_consistency_has_shoulders pair c E).
Qed.

(** Below ten frames the estimator returns its early result. *)
Lemma fatigue_below_ten poses exercise_type :
  length poses < 10 →
  detect_fatigue_indicators np_mean poses exercise_type =
  {| fatigue_score := 0.0; indicators := [];
     early_consistency := None; late_consistency := None |}.
Proof.
  intros H. unfold detect_fatigue_indicators.
  destruct (Nat.ltb_spec (length poses) 10); [reflexivity | lia].
Qed.

(** C3 (amended): for every frame sequence with fewer than 10 frames in
    all, missing ones included, the fatigue estimator returns a score of
    exactly 0.0 with an empty indicator list. *)
Theorem fatigue_zero_below_ten_frames (poses : list Frame) (exercise_type : string) :
  length poses < 10 →
  fatigue_score (detect_fatigue_indicators np_mean poses exercise_type) = 0.0 ∧
  indicators (detect_fatigue_indicators np_mean poses exercise_type) = [].
Proof.
  intros H. rewrite (fatigue_below_ten poses exercise_type H). by split.
Qed.

(** C8: for every frame sequence and label the fatigue score lies in the
    closed interval [0.0, 1.0]. *)
Theorem fatigue_score_in_unit_interval (poses : list Frame) (exercise_type : string) :
  (0.0 <=? fatigue_score (detect_fatigue_indicators np_mean poses exercise_type)) = true ∧
  (fatigue_score (detect_fatigue_indicators np_mean poses exercise_type) <=? 1.0) = true.
Proof.
  unfold detect_fatigue_indicators.
  destruct (length poses <? 10)%nat; [by vm_compute |].
  repeat match goal with
         | |- context [if ?b then _ else _] => destruct b
         end; simpl; by vm_compute.
Qed.

End EstimatorProperties.

(** ** Segment builder *)

Lemma placed_weaken timestamps lo segs hi hi' :
  placed timestamps lo segs hi → hi ≤ hi' → placed timestamps lo segs hi'.
Proof.
  induction 1 as [lo hi H|lo hi s a b rest Hlo Hs Hrest IH]; intros Hhi.
  - constructor. lia.
  - econstructor; eauto.
Qed.

Lemma placed_snoc timestamps lo segs hi s a b hi' :
  placed timestamps lo segs hi → hi ≤ a → seg_at timestamps s a b → S b ≤ hi' →
  placed timestamps lo (segs ++ [s]) hi'.
Proof.
  induction 1 as [lo hi H|lo hi s0 a0 b0 rest Hlo Hs Hrest IH]; intros Ha Hat Hb; simpl.
  - econstructor; [| exact Hat | by constructor]. lia.
  - econstructor; eauto.
Qed.

(** The range is never empty the wrong way round. *)
Lemma placed_le timestamps lo segs hi :
  placed timestamps lo segs hi → lo ≤ hi.
Proof.
  induction 1 as [lo hi H|lo hi s a b rest Hlo (_ & _ & Hab) Hrest IH]; lia.
Qed.

(** Where a placed segment sits. *)
Lemma placed_each timestamps lo segs hi k s :
  placed timestamps lo segs hi → segs !! k = Some s →
  ∃ a b, lo ≤ a ∧ seg_at timestamps s a b ∧ b < hi.
Proof.
  intros H. revert k.
  induction H as [lo hi H|lo hi s0 a0 b0 rest Hlo Hs Hrest IH]; intros k Hk.
  - by rewrite lookup_nil in Hk.
  - destruct k as [|k]; simpl in Hk.
    + injection Hk as <-. exists a0, b0.
      pose proof (placed_le _ _ _ _ Hrest). split; [done |]. split; [done | lia].
    + destruct (IH k Hk) as (a & b & Ha & Hat & Hb).
      exists a, b. destruct Hs as (_ & _ & ?). split; [lia | done].
Qed.

(** Two placed segments: the earlier one ends before the later one starts. *)
Lemma placed_pair timestamps lo segs hi i j s s' :
  placed timestamps lo segs hi → i < j →
  segs !! i = Some s → segs !! j = Some s' →
  ∃ a b a' b', seg_at timestamps s a b ∧ seg_at timestamps s' a' b' ∧ b < a'.
Proof.
  intros H. revert i j.
  induction H as [lo hi H|lo hi s0 a0 b0 rest Hlo Hs Hrest IH]; intros i j Hij Hi Hj.
  - by rewrite lookup_nil in Hi.
  - destruct j as [|j]; [lia |]. destruct i as [|i]; simpl in Hi, Hj.
    + injection Hi as <-.
      destruct (placed_each _ _ _ _ _ _ Hrest Hj) as (a' & b' & Ha' & Hat' & _).
      exists a0, b0, a', b'. split; [done |]. split; [done | lia].
    + apply (IH i j); [lia | done | done].
Qed.

(** The boolean test of the timestamps, by index. *)
Lemma strictly_increasing_lookup timestamps a b ta tb :
  strictly_increasing timestamps = true → a < b →
  timestamps !! a = Some ta → timestamps !! b = Some tb →
  (ta <? tb)%float = true.
Proof.
  revert a b. induction timestamps as [|t later IH]; intros a b H Hab Ha Hb.
  - by rewrite lookup_nil in Ha.
  - simpl in H. apply andb_true_iff in H as [Hall Hlater].
    destruct b as [|b]; [lia |]. destruct a as [|a]; simpl in Ha, Hb.
    + injection Ha as <-. rewrite forallb_forall in Hall.
      apply Hall. apply list_elem_of_In. by apply list_elem_of_lookup_2 with b.
    + apply (IH a b); [done | lia | done | done].
Qed.

(** A truthy label is the current label, and it is not empty. *)
Lemma truthy_label_Some current label :
  truthy_label current = Some label → current = Some label ∧ label ≠ "".
Proof.
  unfold truthy_label. destruct current as [l|]; [| discriminate].
  destruct (String.eqb_spec l ""); [discriminate |]. by intros [= <-].
Qed.

Section BuilderInvariant.

Variable timestamps : list float.
Variable L : string → Prop.

(** Saving inside the loop, at a frame index within the timestamps, never
    raises, and keeps the saved segments before that index. *)
Lemma save_previous_inv i st :
  builder_inv timestamps L i st → i ≤ length timestamps →
  ∃ segs, save_previous timestamps st i = Ok segs ∧
          placed timestamps 0 segs i ∧ Forall (well_formed L) segs.
Proof.
  intros (Hrun & Hcur & Hplaced & Hwf) Hi. unfold save_previous.
  assert (Hkeep : placed timestamps 0 (segments st) i)
    by (apply (placed_weaken _ _ _ _ _ Hplaced); lia).
  destruct (truthy_label (current_exercise st)) as [label|] eqn:Hlabel;
    [| by exists (segments st)].
  apply truthy_label_Some in Hlabel as [Hlabel Hne].
  destruct (Nat.ltb_spec 5 (length (segment_poses st))) as [Hlen|];
    [| by exists (segments st)].
  destruct (Nat.ltb_spec 0 i) as [_|]; [| lia].
  unfold py_index.
  destruct (lookup_lt_is_Some_2 timestamps (segment_start st)) as [t0 Ht0]; [lia |].
  destruct (lookup_lt_is_Some_2 timestamps (i - 1)) as [t1 Ht1]; [lia |].
  rewrite Ht0, Ht1. simpl. eexists. split; [reflexivity |]. split.
  - apply (placed_snoc _ _ _ _ _ (segment_start st) (i - 1) _ Hplaced); [lia | | lia].
    repeat split; simpl; [done | done | lia].
  - apply Forall_app. split; [done |]. constructor; [| constructor].
    repeat split; simpl; auto.
Qed.

(** The loop never raises when every remaining frame has a timestamp, and it
    keeps the invariant. *)
Lemma segment_loop_inv rest i st :
  builder_inv timestamps L i st → i + length rest ≤ length timestamps →
  Forall (λ p, ∀ l, classify_exercise_from_pose p = Some l → L l) rest →
  ∃ st', segment_loop timestamps i rest st = Ok st' ∧
         builder_inv timestamps L (i + length rest) st'.
Proof.
  revert i st. induction rest as [|pose rest IH]; intros i st Hinv Hlen Hrest; simpl.
  - exists st. split; [done |]. by rewrite Nat.add_0_r.
  - simpl in Hlen. apply Forall_cons in Hrest as [Hpose Hrest].
    replace (i + S (length rest)) with (S i + length rest) by lia.
    case_bool_decide as Hchange.
    + destruct (save_previous_inv i st Hinv) as (segs & -> & Hplaced & Hwf); [lia |].
      simpl. apply IH; [| lia | done].
      repeat split; simpl; [lia | exact Hpose | done | done].
    + destruct Hinv as (Hrun & Hcur & Hplaced & Hwf).
      apply IH; [| lia | done].
      repeat split; simpl; [rewrite length_app; simpl; lia | done | done | done].
Qed.

(** Saving the final run never raises either, and all segments lie within
    the timestamps. *)
Lemma add_final_inv i st :
  builder_inv timestamps L i st → i ≤ length timestamps →
  ∃ segs, add_final timestamps st = Ok segs ∧
          placed timestamps 0 segs (length timestamps) ∧ Forall (well_formed L) segs.
Proof.
  intros (Hrun & Hcur & Hplaced & Hwf) Hi. unfold add_final.
  assert (Hkeep : placed timestamps 0 (segments st) (length timestamps))
    by (apply (placed_weaken _ _ _ _ _ Hplaced); lia).
  destruct (truthy_label (current_exercise st)) as [label|] eqn:Hlabel;
    [| by exists (segments st)].
  apply truthy_label_Some in Hlabel as [Hlabel Hne].
  destruct (Nat.ltb_spec 5 (length (segment_poses st))) as [Hlen|];
    [| by exists (segments st)].
  unfold py_index, py_last. rewrite last_lookup.
  destruct (lookup_lt_is_Some_2 timestamps (segment_start st)) as [t0 Ht0]; [lia |].
  destruct (lookup_lt_is_Some_2 timestamps (pred (length timestamps))) as [t1 Ht1];
    [lia |].
  rewrite Ht0, Ht1. simpl. eexists. split; [reflexivity |]. split.
  - apply (placed_snoc _ _ _ _ _ (segment_start st) (pred (length timestamps)) _ Hplaced);
      [lia | | lia].
    repeat split; simpl; [done | done | lia].
  - apply Forall_app. split; [done |]. constructor; [| constructor].
    repeat split; simpl; auto.
Qed.

(** The builder as a whole. *)
Lemma segment_workout_inv poses :
  length poses ≤ length timestamps →
  Forall (λ p, ∀ l, classify_exercise_from_pose p = Some l → L l) poses →
  ∃ segs, segment_workout_into_exercises poses timestamps = Ok segs ∧
          placed timestamps 0 segs (length timestamps) ∧ Forall (well_formed L) segs.
Proof.
  intros Hlen Hposes. unfold segment_workout_into_exercises.
  destruct (segment_loop_inv poses 0
              {| segments := []; current_exercise := None;
                 segment_start := 0; segment_poses := [] |})
    as (st & -> & Hinv); [| done | done |].
  - repeat split; simpl; [done | by constructor | by constructor].
  - simpl. apply (add_final_inv (length poses)); done.
Qed.

End BuilderInvariant.

(** C2 (amended): for every pose sequence with one timestamp per frame and
    strictly increasing timestamps, the builder returns a segment list in
    which every segment has one of the classifier's labels (['unknown']
    included), more than 5 frames and a start before its end, and in which
    every segment ends before each later one starts, so that the segments do
    not overlap and are ordered by start time. *)
Theorem segments_long_disjoint_and_ordered
    (all_poses : list Frame) (timestamps : list float) :
  length timestamps = length all_poses →
  strictly_increasing timestamps = true →
  ∃ segs,
    segment_workout_into_exercises all_poses timestamps = Ok segs ∧
    Forall (λ s, exercise s ∈ ["squat"; "pushup"; "plank"; "standing"; "unknown"] ∧
                 5 < frame_count s ∧
                 (start_time s <? end_time s)%float = true) segs ∧
    ∀ i j s s', i < j → segs !! i = Some s → segs !! j = Some s' →
      (end_time s <? start_time s')%float = true ∧
      (start_time s <? start_time s')%float = true.
Proof.
  intros Hlen Hinc.
  destruct (segment_workout_inv timestamps
              (λ l, l ∈ ["squat"; "pushup"; "plank"; "standing"; "unknown"]) all_poses)
    as (segs & Hrun & Hplaced & Hwf); [lia | |].
  { apply Forall_forall. intros p _ l Hl.
    destruct (classify_cases p) as [H|(l' & H & Hin)]; congruence. }
  exists segs. split; [done |]. split.
  - apply Forall_lookup_2. intros k s Hk.
    rewrite Forall_lookup in Hwf. destruct (Hwf k s Hk) as (Hl & _ & Hcount & _).
    destruct (placed_each _ _ _ _ _ _ Hplaced Hk) as (a & b & _ & (Ha & Hb & Hab) & _).
    split; [done |]. split; [done |].
    by apply (strictly_increasing_lookup timestamps a b).
  - intros i j s s' Hij Hi Hj.
    destruct (placed_pair _ _ _ _ _ _ _ _ Hplaced Hij Hi Hj)
      as (a & b & a' & b' & (Ha & Hb & Hab) & (Ha' & Hb' & Hab') & Hba).
    split.
    + by apply (strictly_increasing_lookup timestamps b a').
    + apply (strictly_increasing_lookup timestamps a a'); [done | lia | done | done].
Qed.

(** C2 (counterexample): six missing frames are one ['unknown'] run of more
    than 5 frames, which the builder returns as a segment. *)
Lemma unknown_run_is_materialized :
  segment_workout_into_exercises six_missing six_seconds =
  Ok [{| exercise := "unknown"; start_time := 0; end_time := 5; duration := 5;
         poses := six_missing; frame_count := 6 |}].
Proof. vm_compute. reflexivity. Qed.

(** C5 (amended): the builder does not inspect the order of the timestamps:
    for every pose sequence that has a timestamp for each frame, monotonic
    or not, it returns its segment list and raises nothing. *)
Theorem segment_builder_accepts_any_order
    (all_poses : list Frame) (timestamps : list float) :
  length all_poses ≤ length timestamps →
  ∃ segs, segment_workout_into_exercises all_poses timestamps = Ok segs.
Proof.
  intros Hlen.
  destruct (segment_workout_inv timestamps (λ _, True) all_poses)
    as (segs & Hrun & _); [done | | by exists segs].
  by apply Forall_forall.
Qed.

(** C5 (counterexample): with timestamps running backwards the builder
    returns a segment that ends before it starts, and no error. *)
Lemma backwards_timestamps_accepted :
  non_monotonic backwards ∧
  segment_workout_into_exercises six_upright backwards =
  Ok [{| exercise := "squat"; start_time := 5; end_time := 0; duration := -5;
         poses := six_upright; frame_count := 6 |}].
Proof.
  split.
  - exists 0, 1, 5%float, 4%float. repeat split; [lia | done..].
  - vm_compute. reflexivity.
Qed.

Lemma segments_long_disjoint_and_ordered_witness :
  length twelve_seconds = length upright_then_missing ∧
  strictly_increasing twelve_seconds = true ∧
  ∃ segs,
    segment_workout_into_exercises upright_then_missing twelve_seconds = Ok segs ∧
    Forall (λ s, exercise s ∈ ["squat"; "pushup"; "plank"; "standing"; "unknown"] ∧
                 5 < frame_count s ∧
                 (start_time s <? end_time s)%float = true) segs ∧
    ∀ i j s s', i < j → segs !! i = Some s → segs !! j = Some s' →
      (end_time s <? start_time s')%float = true ∧
      (start_time s <? start_time s')%float = true.
Proof.
  split; [reflexivity |]. split; [vm_compute; reflexivity |].
  apply (segments_long_disjoint_and_ordered upright_then_missing twelve_seconds);
    [reflexivity | vm_compute; reflexivity].
Defined.

Lemma segment_builder_accepts_any_order_witness :
  length six_upright ≤ length backwards ∧
  ∃ segs, segment_workout_into_exercises six_upright backwards = Ok segs.
Proof.
  assert (H : length six_upright ≤ length backwards) by (vm_compute; lia).
  split; [exact H |].
  exact (segment_builder_accepts_any_order six_upright backwards H).
Defined.

(** ** Session analysis *)

(** Segments labelled ['unknown'] are skipped by the per-segment loop. *)
Lemma unknown_segments_skipped np_mean segs acc :
  Forall (λ s, exercise s = "unknown") segs →
  fold_left (analyze_segment np_mean) segs acc = acc.
Proof.
  intros H. revert acc. induction H as [|s segs Hs _ IH]; intros acc; simpl; [done |].
  rewrite IH. unfold analyze_segment. destruct acc as [analysis total].
  by rewrite Hs.
Qed.

(** A sequence of missing frames has no valid pose. *)
Lemma all_missing_no_valid (all_poses : list Frame) :
  Forall (λ p, p = None) all_poses → List.filter is_not_None all_poses = [].
Proof. induction 1 as [|p ps -> _ IH]; simpl; done. Qed.

(** C4 (amended): for every pose sequence in which every frame is the
    no-observation marker the pipeline raises nothing and builds no Session
    Report: it returns the error value 'No frames extracted from video' for
    the empty sequence and 'Insufficient pose data for analysis' otherwise.
    On such a sequence the segment builder returns only segments labelled
    ['unknown'], which the per-segment loop skips, so that no segment is
    analysed and the rep total stays 0. *)
Theorem all_missing_sequence_yields_error_value
    (np_mean : list float → float) (all_poses : list Frame)
    (duration : float) (frames_in_video : Z) :
  Forall (λ p, p = None) all_poses →
  analyze_workout_session np_mean all_poses duration frames_in_video =
    Ok (ErrorValue (if Nat.eqb (length all_poses) 0
                    then "No frames extracted from video"
                    else "Insufficient pose data for analysis")) ∧
  ∀ timestamps, length all_poses ≤ length timestamps →
    ∃ segs, segment_workout_into_exercises all_poses timestamps = Ok segs ∧
            Forall (λ s, exercise s = "unknown") segs ∧
            fold_left (analyze_segment np_mean) segs ([], 0%Z) = ([], 0%Z).
Proof.
  intros Hmissing. split.
  - unfold analyze_workout_session.
    destruct (Nat.eqb (length all_poses) 0); [done |].
    by rewrite (all_missing_no_valid all_poses Hmissing).
  - intros timestamps Hlen.
    destruct (segment_workout_inv timestamps (λ l, l = "unknown") all_poses)
      as (segs & Hrun & _ & Hwf); [done | |].
    { eapply Forall_impl; [exact Hmissing |]. intros p -> l Hl.
      rewrite classify_missing in Hl. by injection Hl. }
    assert (Hunknown : Forall (λ s, exercise s = "unknown") segs)
      by (eapply Forall_impl; [exact Hwf |]; by intros s (? & _)).
    exists segs. split; [done |]. split; [done |].
    by apply unknown_segments_skipped.
Qed.

Lemma all_missing_sequence_yields_error_value_witness :
  Forall (λ p : Frame, p = None) twelve_missing ∧
  analyze_workout_session mean_in_order twelve_missing 12 360 =
    Ok (ErrorValue "Insufficient pose data for analysis").
Proof.
  assert (H : Forall (λ p : Frame, p = None) twelve_missing)
    by (repeat constructor).
  split; [exact H |].
  exact (proj1 (all_missing_sequence_yields_error_value
                  mean_in_order twelve_missing 12 360 H)).
Defined.

(** C4 (counterexample): twelve missing frames of a 12-second video give the
    error value, not a report with zero totals. *)
Lemma all_missing_gives_no_report :
  analyze_workout_session mean_in_order twelve_missing 12 360 =
    Ok (ErrorValue "Insufficient pose data for analysis") ∧
  ∀ report, analyze_workout_session mean_in_order twelve_missing 12 360
            ≠ Ok (SessionReport report).
Proof.
  assert (H : analyze_workout_session mean_in_order twelve_missing 12 360 =
              Ok (ErrorValue "Insufficient pose data for analysis"))
    by (vm_compute; reflexivity).
  split; [exact H |]. intros report. rewrite H. discriminate.
Qed.

(** ** Fatigue and stability at concrete inputs *)

(** C3 (counterexample): a sequence with 2 valid frames and 10 missing ones
    has fewer than 10 valid frames, yet the estimator reports a fatigue
    score of 0.3 and one indicator. *)
Lemma few_valid_frames_nonzero_fatigue :
  valid_frames two_then_missing < 10 ∧
  fatigue_score (detect_fatigue_indicators mean_in_order two_then_missing "squat")
    = 0.3%float ∧
  indicators (detect_fatigue_indicators mean_in_order two_then_missing "squat")
    = ["Form degradation detected"].
Proof.
  split; [vm_compute; lia |]. split; vm_compute; reflexivity.
Qed.

Lemma fatigue_zero_below_ten_frames_witness :
  length [upright; None; upright] < 10 ∧
  fatigue_score (detect_fatigue_indicators mean_in_order [upright; None; upright] "squat")
    = 0%float ∧
  indicators (detect_fatigue_indicators mean_in_order [upright; None; upright] "squat")
    = [].
Proof.
  assert (H : length [upright; None; upright] < 10) by (vm_compute; lia).
  split; [exact H |].
  exact (fatigue_zero_below_ten_frames mean_in_order [upright; None; upright] "squat" H).
Defined.

Lemma stability_one_consistency_zero_without_pairs_witness :
  some_adjacent_pair ["nose"] [half_seen; upright; None; upright] = false ∧
  some_adjacent_pair ["left_shoulder"; "right_shoulder"]
    [half_seen; upright; None; upright] = false ∧
  calculate_pose_stability mean_in_order [half_seen; upright; None; upright] = 1%float ∧
  calculate_form_consistency mean_in_order [half_seen; upright; None; upright] "squat"
    = 0%float.
Proof.
  assert (Hn : some_adjacent_pair ["nose"] [half_seen; upright; None; upright] = false)
    by (vm_compute; reflexivity).
  assert (Hs : some_adjacent_pair ["left_shoulder"; "right_shoulder"]
                 [half_seen; upright; None; upright] = false)
    by (vm_compute; reflexivity).
  destruct (stability_one_consistency_zero_without_pairs mean_in_order
              [half_seen; upright; None; upright] "squat") as [Hstab Hcons].
  split; [exact Hn |]. split; [exact Hs |].
  split; [exact (Hstab (or_intror Hn)) | exact (Hcons Hs)].
Defined.

(** The order of the segments' start times is the order of the timestamps
    they are read from: with timestamps running backwards the two runs of
    [upright_then_missing] come out with decreasing start times. *)
Lemma start_times_follow_timestamps :
  segment_workout_into_exercises upright_then_missing (reverse twelve_seconds) =
  Ok [{| exercise := "squat"; start_time := 11; end_time := 6; duration := -5;
         poses := replicate 6 upright; frame_count := 6 |};
      {| exercise := "unknown"; start_time := 5; end_time := 0; duration := -5;
         poses := replicate 6 None; frame_count := 6 |}].
Proof. vm_compute. reflexivity. Qed.

(** * Further properties *)

(** ** Exercise classifier *)

(** When the classifier answers ['unknown']. *)
Lemma classify_unknown_cases (f : Frame) :
  classify_exercise_from_pose f = Some "unknown" ↔
  falsy f = true ∨ ∃ key, key ∈ classifier_required ∧ the_pose f !! key = None.
Proof.
  unfold classify_exercise_from_pose, classifier_required.
  destruct (falsy f); [split; [by left | done] |].
  destruct (the_pose f !! "left_shoulder") as [ls|] eqn:E1; simpl;
    [| split; [right; exists "left_shoulder"; split; [set_solver | done] | done]].
  destruct (the_pose f !! "right_shoulder") as [rs|] eqn:E2; simpl;
    [| split; [right; exists "right_shoulder"; split; [set_solver | done] | done]].
  destruct (the_pose f !! "left_hip") as [lh|] eqn:E3; simpl;
    [| split; [right; exists "left_hip"; split; [set_solver | done] | done]].
  destruct (the_pose f !! "right_hip") as [rh|] eqn:E4; simpl;
    [| split; [right; exists "right_hip"; split; [set_solver | done] | done]].
  destruct (the_pose f !! "left_knee") as [lk|] eqn:E5; simpl;
    [| split; [right; exists "left_knee"; split; [set_solver | done] | done]].
  destruct (the_pose f !! "right_knee") as [rk|] eqn:E6; simpl;
    [| split; [right; exists "right_knee"; split; [set_solver | done] | done]].
  split.
  - repeat match goal with
           | |- context [if ?b then _ else _] => destruct b
           | |- context [match ?o with Some _ => _ | None => _ end] => destruct o
           end; discriminate.
  - intros [H|(key & Hkey & Hnone)]; [discriminate |].
    repeat (apply elem_of_cons in Hkey as [->|Hkey]; [congruence |]).
    by apply elem_of_nil in Hkey.
Qed.

(** X1: the classifier answers ['unknown'] exactly when the frame is missing
    or empty, or lacks one of the two shoulders, hips or knees. *)
Theorem classify_unknown_iff (f : Frame) :
  classify_exercise_from_pose f = Some "unknown" ↔
  falsy f = true ∨ ∃ key, key ∈ classifier_required ∧ the_pose f !! key = None.
Proof. apply classify_unknown_cases. Qed.

(** X2: on a frame without the left wrist the classifier always returns a
    label, one of squat, plank, standing and unknown: it neither answers
    pushup nor runs off its end. *)
Theorem classify_without_left_wrist (f : Frame) :
  the_pose f !! "left_wrist" = None →
  ∃ l, classify_exercise_from_pose f = Some l ∧
       l ∈ ["squat"; "plank"; "standing"; "unknown"].
Proof.
  intros Hwrist. unfold classify_exercise_from_pose. rewrite Hwrist.
  destruct (falsy f); [eexists; split; [done | set_solver] |].
  destruct (the_pose f !! "left_shoulder") as [ls|]; simpl;
    [| eexists; split; [done | set_solver]].
  destruct (the_pose f !! "right_shoulder") as [rs|]; simpl;
    [| eexists; split; [done | set_solver]].
  destruct (the_pose f !! "left_hip") as [lh|]; simpl;
    [| eexists; split; [done | set_solver]].
  destruct (the_pose f !! "right_hip") as [rh|]; simpl;
    [| eexists; split; [done | set_solver]].
  destruct (the_pose f !! "left_knee") as [lk|]; simpl;
    [| eexists; split; [done | set_solver]].
  destruct (the_pose f !! "right_knee") as [rk|]; simpl;
    [| eexists; split; [done | set_solver]].
  repeat match goal with
         | |- context [if ?b then _ else _] => destruct b
         end; eexists; (split; [done | set_solver]).
Qed.

Lemma classify_without_left_wrist_witness :
  the_pose upright !! "left_wrist" = None ∧
  ∃ l, classify_exercise_from_pose upright = Some l ∧
       l ∈ ["squat"; "plank"; "standing"; "unknown"].
Proof.
  assert (H : the_pose upright !! "left_wrist" = None) by (vm_compute; reflexivity).
  split; [exact H | exact (classify_without_left_wrist upright H)].
Defined.

(** Reading a height through a lookup that agrees on heights. *)
Lemma agree_on_height (p q : Pose) key :
  lm_y <$> p !! key = lm_y <$> q !! key →
  (p !! key = None ∧ q !! key = None) ∨
  ∃ a b, p !! key = Some a ∧ q !! key = Some b ∧ lm_y a = lm_y b.
Proof.
  destruct (p !! key) as [a|], (q !! key) as [b|]; simpl; intros H;
    try discriminate; [right | by left].
  exists a, b. by injection H.
Qed.

(** X3: the classifier reads nothing but the heights of the two shoulders,
    hips and knees and of the left wrist: two non-empty poses that agree on
    these seven heights are classified alike, whatever their other landmarks,
    horizontal positions and visibilities. *)
Theorem classify_reads_heights_only (p q : Pose) :
  p ≠ ∅ → q ≠ ∅ →
  (∀ key, key ∈ classifier_required ++ ["left_wrist"] →
          lm_y <$> p !! key = lm_y <$> q !! key) →
  classify_exercise_from_pose (Some p) = classify_exercise_from_pose (Some q).
Proof.
  intros Hp Hq Hkeys. unfold classify_exercise_from_pose, falsy, the_pose. simpl.
  rewrite !bool_decide_eq_false_2 by done.
  assert (H1 : "left_shoulder" ∈ classifier_required ++ ["left_wrist"])
    by (apply list_elem_of_In; simpl; tauto).
  apply Hkeys, agree_on_height in H1.
  assert (H2 : "right_shoulder" ∈ classifier_required ++ ["left_wrist"])
    by (apply list_elem_of_In; simpl; tauto).
  apply Hkeys, agree_on_height in H2.
  assert (H3 : "left_hip" ∈ classifier_required ++ ["left_wrist"])
    by (apply list_elem_of_In; simpl; tauto).
  apply Hkeys, agree_on_height in H3.
  assert (H4 : "right_hip" ∈ classifier_required ++ ["left_wrist"])
    by (apply list_elem_of_In; simpl; tauto).
  apply Hkeys, agree_on_height in H4.
  assert (H5 : "left_knee" ∈ classifier_required ++ ["left_wrist"])
    by (apply list_elem_of_In; simpl; tauto).
  apply Hkeys, agree_on_height in H5.
  assert (H6 : "right_knee" ∈ classifier_required ++ ["left_wrist"])
    by (apply list_elem_of_In; simpl; tauto).
  apply Hkeys, agree_on_height in H6.
  assert (H7 : "left_wrist" ∈ classifier_required ++ ["left_wrist"])
    by (apply list_elem_of_In; simpl; tauto).
  apply Hkeys, agree_on_height in H7.
  destruct H1 as [[-> ->]|(a1 & b1 & -> & -> & E1)]; [done |].
  destruct H2 as [[-> ->]|(a2 & b2 & -> & -> & E2)]; [done |].
  destruct H3 as [[-> ->]|(a3 & b3 & -> & -> & E3)]; [done |].
  destruct H4 as [[-> ->]|(a4 & b4 & -> & -> & E4)]; [done |].
  destruct H5 as [[-> ->]|(a5 & b5 & -> & -> & E5)]; [done |].
  destruct H6 as [[-> ->]|(a6 & b6 & -> & -> & E6)]; [done |].
  simpl. rewrite E1, E2, E3, E4, E5, E6.
  destruct H7 as [[-> ->]|(a7 & b7 & -> & -> & E7)]; [done |].
  destruct (_ && _); [done |].
  destruct (abs _ <? 0.2)%float; simpl; [by rewrite E7 | done].
Qed.

Lemma classify_reads_heights_only_witness :
  classify_exercise_from_pose (Some (<["left_ankle" := (0.1, 0.9, 0)%float]> (the_pose upright)))
  = classify_exercise_from_pose (Some (the_pose upright)).
Proof.
  apply classify_reads_heights_only.
  - apply insert_non_empty.
  - intros H. apply (f_equal (λ m : Pose, m !! "nose")) in H.
    vm_compute in H. discriminate.
  - intros key Hkey. unfold classifier_required in Hkey. simpl in Hkey.
    repeat (apply elem_of_cons in Hkey as [->|Hkey]; [vm_compute; reflexivity |]).
    by apply elem_of_nil in Hkey.
Defined.

(** ** Repetition counter *)

(** A label without a detector leaves the loop state alone. *)
Lemma rep_step_no_detector exercise_type st f :
  exercise_type ≠ "squat" → exercise_type ≠ "pushup" →
  rep_step exercise_type st f = st.
Proof.
  intros Hs Hp. unfold rep_step.
  destruct (String.eqb_spec exercise_type "squat"); [done |].
  destruct (String.eqb_spec exercise_type "pushup"); [done |].
  by destruct (falsy f).
Qed.

(** Without a detector the loop returns the count it started from. *)
Lemma count_reps_no_detector (poses : list Frame) (exercise_type : string) :
  exercise_type ≠ "squat" → exercise_type ≠ "pushup" →
  count_reps_in_sequence poses exercise_type = 0%Z.
Proof.
  intros Hs Hp. unfold count_reps_in_sequence.
  destruct (_ || _); [done |].
  assert (H : ∀ st, fold_left (rep_step exercise_type) poses st = st).
  { induction poses as [|f poses IH]; intros st; simpl; [done |].
    by rewrite rep_step_no_detector. }
  by rewrite H.
Qed.

(** X4: for every label other than squat and pushup (plank, standing,
    general_exercise, any other string) the rep count is 0, whatever the
    frames. *)
Theorem count_reps_zero_without_detector (poses : list Frame) (exercise_type : string) :
  exercise_type ≠ "squat" → exercise_type ≠ "pushup" →
  count_reps_in_sequence poses exercise_type = 0%Z.
Proof. apply count_reps_no_detector. Qed.

Lemma count_reps_zero_without_detector_witness :
  count_reps_in_sequence one_squat "plank" = 0%Z.
Proof. apply count_reps_zero_without_detector; discriminate. Defined.

(** A frame that is missing, empty or short of a required landmark leaves
    the loop state alone. *)
Lemma rep_step_skips exercise_type st f :
  counts_for exercise_type f = false → rep_step exercise_type st f = st.
Proof.
  unfold counts_for, has_required, rep_step.
  destruct f as [pose|]; [| done]. simpl.
  destruct (bool_decide (pose = ∅)); [done |].
  destruct (String.eqb exercise_type "squat").
  - destruct (squat_heights pose) as [[h k]|]; [| done].
    rewrite bool_decide_eq_true_2 by eauto. discriminate.
  - destruct (String.eqb exercise_type "pushup"); [| discriminate].
    destruct (pushup_heights pose) as [[s w]|]; [| done].
    rewrite bool_decide_eq_true_2 by eauto. discriminate.
Qed.

Lemma rep_loop_skips exercise_type poses st :
  fold_left (rep_step exercise_type) (List.filter (counts_for exercise_type) poses) st
  = fold_left (rep_step exercise_type) poses st.
Proof.
  revert st. induction poses as [|f poses IH]; intros st; simpl; [done |].
  destruct (counts_for exercise_type f) eqn:E; simpl; [done |].
  by rewrite (rep_step_skips exercise_type st f E).
Qed.

(** X5: frames that are missing or lack a landmark the detector reads are
    gaps: removing them from the sequence does not change the rep count, so
    they neither advance nor reset the state machine. *)
Theorem count_reps_ignores_gaps (poses : list Frame) (exercise_type : string) :
  count_reps_in_sequence (List.filter (counts_for exercise_type) poses) exercise_type
  = count_reps_in_sequence poses exercise_type.
Proof.
  unfold count_reps_in_sequence.
  destruct (String.eqb exercise_type "unknown"); [done |]. simpl.
  rewrite rep_loop_skips.
  destruct (Nat.eqb_spec (length poses) 0) as [H0|_].
  { destruct poses; [done | discriminate]. }
  destruct (Nat.eqb_spec (length (List.filter (counts_for exercise_type) poses)) 0)
    as [H0|_]; [| done].
  rewrite <- rep_loop_skips.
  destruct (List.filter (counts_for exercise_type) poses); [done | discriminate].
Qed.

Section Cycles.

(** A detector seen through two kinds of frames: on an active frame the
    machine enters a repetition or stays in it, on a rest frame it completes
    a repetition in progress or stays at rest. *)
Variable exercise_type : string.
Variables active rest : Frame → bool.
Hypothesis step_active : ∀ f c in_rep,
  active f = true → rep_step exercise_type (c, in_rep) f = (c, true).
Hypothesis step_rest : ∀ f c in_rep,
  rest f = true →
  rep_step exercise_type (c, in_rep) f = (if in_rep then (c + 1)%Z else c, false).

Lemma active_run run c in_rep :
  Forall (λ f, active f = true) run →
  fold_left (rep_step exercise_type) run (c, in_rep)
  = (c, if Nat.eqb (length run) 0 then in_rep else true).
Proof.
  intros H. revert in_rep. induction H as [|f run Hf _ IH]; intros in_rep; [done |].
  simpl. rewrite (step_active f c in_rep Hf), IH. by destruct (Nat.eqb _ _).
Qed.

Lemma rest_run run c in_rep :
  run ≠ [] → Forall (λ f, rest f = true) run →
  fold_left (rep_step exercise_type) run (c, in_rep)
  = (if in_rep then (c + 1)%Z else c, false).
Proof.
  intros Hne H. revert c in_rep.
  induction H as [|f run Hf Hrun IH]; intros c in_rep; [done |]. simpl.
  rewrite (step_rest f c in_rep Hf).
  destruct run as [|g run]; [done |]. by rewrite IH.
Qed.

Lemma cycles_run cycles c :
  full_cycles active rest cycles →
  fold_left (rep_step exercise_type) (cycles_frames cycles) (c, false)
  = ((c + Z.of_nat (length cycles))%Z, false).
Proof.
  unfold full_cycles, cycles_frames. intros H. revert c.
  induction H as [|[on off] cycles (Hon & Hoff & Hact & Hrest) _ IH]; intros c; simpl.
  - f_equal. lia.
  - simpl in *. rewrite !fold_left_app.
    rewrite (active_run on c false Hact).
    destruct on as [|f on]; [done |]. simpl Nat.eqb. cbv iota.
    rewrite (rest_run off c true Hoff Hrest), IH. f_equal. lia.
Qed.

Lemma cycles_count cycles :
  exercise_type ≠ "unknown" → full_cycles active rest cycles →
  count_reps_in_sequence (cycles_frames cycles) exercise_type
  = Z.of_nat (length cycles).
Proof.
  intros Hu H. unfold count_reps_in_sequence.
  destruct (String.eqb_spec exercise_type "unknown"); [done |]. simpl.
  rewrite (cycles_run cycles 0 H). simpl.
  destruct (Nat.eqb_spec (length (cycles_frames cycles)) 0) as [H0|]; [| done].
  destruct cycles as [|[on off] cycles]; [done |].
  apply Forall_cons in H as [(Hon & _) _].
  unfold cycles_frames in H0. simpl in *. rewrite !length_app in H0.
  destruct on; [done | simpl in H0; lia].
Qed.

Lemma active_tail_count poses run :
  Forall (λ f, active f = true) run →
  count_reps_in_sequence (poses ++ run) exercise_type
  = count_reps_in_sequence poses exercise_type.
Proof.
  intros H. unfold count_reps_in_sequence.
  destruct (String.eqb exercise_type "unknown"); [done |]. simpl.
  rewrite fold_left_app.
  destruct (fold_left (rep_step exercise_type) poses (0%Z, false)) as [c b] eqn:E.
  rewrite (active_run run c b H). simpl.
  destruct poses as [|f poses]; simpl; [| done].
  injection E as <- <-. by destruct (Nat.eqb (length run) 0).
Qed.

End Cycles.

(** At the bottom of a pushup the machine enters a repetition, or stays in
    it. *)
Lemma rep_step_bottom f c in_rep :
  bottom_frame f = true → rep_step "pushup" (c, in_rep) f = (c, true).
Proof.
  unfold bottom_frame, pushup_frame, rep_step. intros H.
  apply andb_true_iff in H as [Hf H]. apply negb_true_iff in Hf. rewrite Hf.
  simpl. destruct (pushup_heights (the_pose f)) as [[s w]|]; [| discriminate].
  apply andb_true_iff in H as [Hb Ht]. apply negb_true_iff in Ht.
  unfold cycle. rewrite Hb, Ht. by destruct in_rep.
Qed.

(** At the top of a pushup the machine completes a repetition in progress,
    and otherwise stays at rest. *)
Lemma rep_step_top f c in_rep :
  top_frame f = true →
  rep_step "pushup" (c, in_rep) f = (if in_rep then (c + 1)%Z else c, false).
Proof.
  unfold top_frame, pushup_frame, rep_step. intros H.
  apply andb_true_iff in H as [Hf H]. apply negb_true_iff in Hf. rewrite Hf.
  simpl. destruct (pushup_heights (the_pose f)) as [[s w]|]; [| discriminate].
  apply andb_true_iff in H as [Ht Hb]. apply negb_true_iff in Hb.
  unfold cycle. rewrite Hb, Ht. by destruct in_rep.
Qed.

(** X6: a squat sequence made of n cycles, each a non-empty run of deep
    frames followed by a non-empty run of standing frames, yields a rep
    count of exactly n: runs of any length count once. *)
Theorem squat_cycles_counted (cycles : list (list Frame * list Frame)) :
  full_cycles deep_frame standing_frame cycles →
  count_reps_in_sequence (cycles_frames cycles) "squat" = Z.of_nat (length cycles).
Proof.
  apply (cycles_count "squat" deep_frame standing_frame); [| | done].
  - intros f c in_rep. apply rep_step_deep.
  - intros f c in_rep. apply rep_step_standing.
Qed.

Lemma squat_cycles_counted_witness :
  count_reps_in_sequence
    (cycles_frames [([lowered], [upright; upright]); ([lowered; lowered], [upright])])
    "squat" = 2%Z.
Proof.
  apply (squat_cycles_counted
           [([lowered], [upright; upright]); ([lowered; lowered], [upright])]).
  repeat constructor; done.
Defined.

(** X7: a pushup sequence made of n cycles, each a non-empty run of bottom
    frames (shoulder within 0.1 of the wrist) followed by a non-empty run of
    top frames (shoulder more than 0.2 from the wrist), yields a rep count of
    exactly n. *)
Theorem pushup_cycles_counted (cycles : list (list Frame * list Frame)) :
  full_cycles bottom_frame top_frame cycles →
  count_reps_in_sequence (cycles_frames cycles) "pushup" = Z.of_nat (length cycles).
Proof.
  apply (cycles_count "pushup" bottom_frame top_frame); [| | done].
  - intros f c in_rep. apply rep_step_bottom.
  - intros f c in_rep. apply rep_step_top.
Qed.

Lemma pushup_cycles_counted_witness :
  count_reps_in_sequence
    (cycles_frames [([pressed; pressed], [raised]); ([pressed], [raised; raised]);
                    ([pressed], [raised])])
    "pushup" = 3%Z.
Proof.
  apply (pushup_cycles_counted
           [([pressed; pressed], [raised]); ([pressed], [raised; raised]);
            ([pressed], [raised])]).
  repeat constructor; done.
Defined.

(** X8: a repetition still in progress when the sequence ends is not
    counted: appending deep frames to a squat sequence, or bottom frames to
    a pushup sequence, leaves the rep count unchanged. *)
Theorem unfinished_rep_not_counted (poses run : list Frame) :
  (Forall (λ f, deep_frame f = true) run →
   count_reps_in_sequence (poses ++ run) "squat"
   = count_reps_in_sequence poses "squat") ∧
  (Forall (λ f, bottom_frame f = true) run →
   count_reps_in_sequence (poses ++ run) "pushup"
   = count_reps_in_sequence poses "pushup").
Proof.
  split.
  - apply (active_tail_count "squat" deep_frame).
    intros f c in_rep. apply rep_step_deep.
  - apply (active_tail_count "pushup" bottom_frame).
    intros f c in_rep. apply rep_step_bottom.
Qed.

Lemma unfinished_rep_not_counted_witness :
  count_reps_in_sequence (one_squat ++ [lowered; lowered]) "squat"
  = count_reps_in_sequence one_squat "squat" ∧
  count_reps_in_sequence ([pressed; raised] ++ [pressed]) "pushup"
  = count_reps_in_sequence [pressed; raised] "pushup".
Proof.
  destruct (unfinished_rep_not_counted one_squat [lowered; lowered]) as [Hs _].
  destruct (unfinished_rep_not_counted [pressed; raised] [pressed]) as [_ Hp].
  split; [apply Hs | apply Hp]; repeat constructor; done.
Defined.

(** ** Stability and fatigue *)

(** Python's [l[start:]] with a negative start keeps the last [-start]
    elements, or all of them. *)
Lemma py_slice_from_negative {A} (l : list A) (k : nat) :
  0 < k → py_slice_from (- Z.of_nat k) l = drop (length l - k) l.
Proof.
  intros Hk. unfold py_slice_from.
  destruct (Z.ltb_spec (- Z.of_nat k) 0) as [_|]; [| lia].
  f_equal. lia.
Qed.

(** The late window of the fatigue estimator: the last ceil(n / 3) frames. *)
Lemma late_window (poses : list Frame) :
  0 < length poses →
  py_slice_from (- Z.of_nat (length poses) / 3) poses
  = drop (length poses - (length poses + 2) / 3) poses.
Proof.
  intros Hn.
  replace (- Z.of_nat (length poses) / 3)%Z
    with (- Z.of_nat ((length poses + 2) / 3))%Z.
  - apply py_slice_from_negative.
    pose proof (Nat.div_mod_eq (length poses + 2) 3).
    pose proof (Nat.mod_upper_bound (length poses + 2) 3). lia.
  - rewrite Nat2Z.inj_div. simpl Z.of_nat.
    pose proof (Z.div_mod (Z.of_nat (length poses + 2)) 3).
    pose proof (Z.mod_pos_bound (Z.of_nat (length poses + 2)) 3).
    pose proof (Z.div_mod (- Z.of_nat (length poses)) 3).
    pose proof (Z.mod_pos_bound (- Z.of_nat (length poses)) 3).
    lia.
Qed.

Section FurtherEstimatorProperties.
Local Open Scope float_scope.

Variable np_mean : list float → float.


(** X10: the fatigue score is determined by the indicators reported: 0.0
    for none, 0.3 for form degradation alone, 0.2 for instability alone and
    0.5 for both, form degradation listed first. *)
Theorem fatigue_score_matches_indicators (poses : list Frame) (exercise_type : string) :
  (indicators (detect_fatigue_indicators np_mean poses exercise_type),
   fatigue_score (detect_fatigue_indicators np_mean poses exercise_type))
  ∈ [([], 0.0);
     (["Form degradation detected"], 0.3);
     (["Increased movement instability"], 0.2);
     (["Form degradation detected"; "Increased movement instability"], 0.5)].
Proof.
  unfold detect_fatigue_indicators.
  destruct (length poses <? 10)%nat; [simpl; set_solver |].
  repeat match goal with
         | |- context [if ?b then _ else _] => destruct b
         end; simpl;
    match goal with
    | |- (_, ?x) ∈ _ => let y := eval vm_compute in x in change x with y
    end; set_solver.
Qed.

(** X11: on a sequence of fewer than 16 frames the late window has at most
    5 frames, the stability check is skipped, and the instability indicator
    is never reported. *)
Theorem no_instability_below_sixteen_frames (poses : list Frame) (exercise_type : string) :
  (length poses < 16)%nat →
  "Increased movement instability"
  ∉ indicators (detect_fatigue_indicators np_mean poses exercise_type).
Proof.
  intros Hn. unfold detect_fatigue_indicators.
  destruct (Nat.ltb_spec (length poses) 10) as [|H10]; [apply not_elem_of_nil |].
  rewrite late_window by lia. rewrite length_drop.
  destruct (Nat.ltb_spec 5
              (length poses - (length poses - (length poses + 2) / 3))) as [H5|_].
  - pose proof (Nat.div_mod_eq (length poses + 2) 3).
    pose proof (Nat.mod_upper_bound (length poses + 2) 3). lia.
  - destruct (_ <? _); simpl;
      [apply not_elem_of_cons; split; [discriminate |] |]; apply not_elem_of_nil.
Qed.

(** X12: from 10 frames on, the two consistencies reported with the score
    are those of the first floor(n / 3) frames and of the last
    ceil(n / 3) frames of the sequence. *)
Theorem fatigue_windows (poses : list Frame) (exercise_type : string) :
  (10 ≤ length poses)%nat →
  early_consistency (detect_fatigue_indicators np_mean poses exercise_type)
  = Some (calculate_form_consistency np_mean
            (take (length poses / 3) poses) exercise_type) ∧
  late_consistency (detect_fatigue_indicators np_mean poses exercise_type)
  = Some (calculate_form_consistency np_mean
            (drop (length poses - (length poses + 2) / 3) poses) exercise_type).
Proof.
  intros Hn. unfold detect_fatigue_indicators.
  destruct (Nat.ltb_spec (length poses) 10) as [|_]; [lia |].
  rewrite late_window by lia.
  repeat match goal with
         | |- context [if ?b then _ else _] => destruct b
         end; by split.
Qed.

End FurtherEstimatorProperties.

Lemma no_instability_below_sixteen_frames_witness :
  length (replicate 15 upright) < 16 ∧
  "Increased movement instability"
  ∉ indicators (detect_fatigue_indicators mean_in_order (replicate 15 upright) "squat").
Proof.
  assert (H : length (replicate 15 upright) < 16) by (vm_compute; lia).
  split; [exact H |].
  exact (no_instability_below_sixteen_frames mean_in_order (replicate 15 upright) "squat" H).
Defined.

Lemma fatigue_windows_witness :
  10 ≤ length two_then_missing ∧
  early_consistency (detect_fatigue_indicators mean_in_order two_then_missing "squat")
  = Some (calculate_form_consistency mean_in_order
            [upright; upright; None; None] "squat") ∧
  late_consistency (detect_fatigue_indicators mean_in_order two_then_missing "squat")
  = Some (calculate_form_consistency mean_in_order (replicate 4 None) "squat").
Proof.
  assert (H : 10 ≤ length two_then_missing) by (vm_compute; lia).
  split; [exact H |].
  exact (fatigue_windows mean_in_order two_then_missing "squat" H).
Defined.

(** ** Segment builder *)

(** What saving can do to the segment list: nothing, or append the open run
    under its label. *)
Lemma save_previous_cases timestamps st i segs :
  save_previous timestamps st i = Ok segs →
  segs = segments st ∨
  ∃ s, segs = segments st ++ [s] ∧ poses s = segment_poses st ∧
       current_exercise st = Some (exercise s).
Proof.
  unfold save_previous.
  destruct (truthy_label (current_exercise st)) as [label|] eqn:Hlabel;
    [| intros [= <-]; by left].
  apply truthy_label_Some in Hlabel as [Hlabel _].
  destruct (5 <? length (segment_poses st)); [| intros [= <-]; by left].
  destruct (py_index timestamps (segment_start st)) as [t0|]; [| discriminate].
  simpl. destruct (0 <? i).
  - destruct (py_index timestamps (i - 1)) as [t1|]; [| discriminate]. simpl.
    intros [= <-]. right. eexists. by repeat split.
  - simpl. intros [= <-]. right. eexists. by repeat split.
Qed.

Lemma add_final_cases timestamps st segs :
  add_final timestamps st = Ok segs →
  segs = segments st ∨
  ∃ s, segs = segments st ++ [s] ∧ poses s = segment_poses st ∧
       current_exercise st = Some (exercise s).
Proof.
  unfold add_final.
  destruct (truthy_label (current_exercise st)) as [label|] eqn:Hlabel;
    [| intros [= <-]; by left].
  apply truthy_label_Some in Hlabel as [Hlabel _].
  destruct (5 <? length (segment_poses st)); [| intros [= <-]; by left].
  destruct (py_index timestamps (segment_start st)) as [t0|]; [| discriminate].
  simpl. destruct (py_last timestamps) as [t1|]; [| discriminate]. simpl.
  intros [= <-]. right. eexists. by repeat split.
Qed.

(** Dropping the open run keeps a subsequence. *)
Lemma sublist_drop_tail {A} (l1 l2 l : list A) :
  l1 ++ l2 `sublist_of` l → l1 `sublist_of` l.
Proof.
  intros H. etrans; [| exact H]. by apply sublist_inserts_r.
Qed.

(** The loop keeps every run uniform and takes its frames from the input in
    order: [seen] are the frames before the current index. *)
Lemma segment_loop_runs timestamps rest seen i st st' :
  segment_loop timestamps i rest st = Ok st' →
  Forall (λ p, classify_exercise_from_pose p = current_exercise st) (segment_poses st) →
  Forall (λ s, Forall (λ p, classify_exercise_from_pose p = Some (exercise s)) (poses s))
         (segments st) →
  concat (poses <$> segments st) ++ segment_poses st `sublist_of` seen →
  Forall (λ p, classify_exercise_from_pose p = current_exercise st') (segment_poses st') ∧
  Forall (λ s, Forall (λ p, classify_exercise_from_pose p = Some (exercise s)) (poses s))
         (segments st') ∧
  concat (poses <$> segments st') ++ segment_poses st' `sublist_of` seen ++ rest.
Proof.
  revert seen i st. induction rest as [|pose rest IH]; intros seen i st; simpl.
  - intros [= <-] Hrun Hsegs Hsub. by rewrite app_nil_r.
  - case_bool_decide as Hchange.
    + destruct (save_previous timestamps st i) as [saved|] eqn:Hsave; [| discriminate].
      simpl. intros Hloop Hrun Hsegs Hsub.
      replace (seen ++ pose :: rest) with ((seen ++ [pose]) ++ rest)
        by (by rewrite <- app_assoc).
      apply (IH _ _ _ Hloop); simpl.
      * by repeat constructor.
      * destruct (save_previous_cases _ _ _ _ Hsave) as [->|(s & -> & Hs & Hl)]; [done |].
        apply Forall_app. split; [done |]. repeat constructor.
        rewrite Hs. by rewrite Hl in Hrun.
      * apply sublist_app; [| done].
        destruct (save_previous_cases _ _ _ _ Hsave) as [->|(s & -> & Hs & Hl)].
        -- by apply sublist_drop_tail with (segment_poses st).
        -- rewrite fmap_app, concat_app. simpl. by rewrite app_nil_r, Hs.
    + intros Hloop Hrun Hsegs Hsub.
      replace (seen ++ pose :: rest) with ((seen ++ [pose]) ++ rest)
        by (by rewrite <- app_assoc).
      apply (IH _ _ _ Hloop); simpl.
      * apply Forall_app. split; [done |]. repeat constructor.
        by destruct (decide (classify_exercise_from_pose pose = current_exercise st)).
      * done.
      * rewrite app_assoc. by apply sublist_app.
Qed.

(** The frames held by well-formed segments. *)
Lemma frames_held_concat segs :
  Forall (λ s, frame_count s = length (poses s)) segs →
  frames_held segs = length (concat (poses <$> segs)).
Proof.
  unfold frames_held. induction 1 as [|s segs Hs _ IH]; [done |].
  rewrite fmap_cons, concat_cons, length_app, <- IH, <- Hs. done.
Qed.

(** Both facts for the builder as a whole. *)
Lemma segment_workout_runs all_poses timestamps segs :
  segment_workout_into_exercises all_poses timestamps = Ok segs →
  Forall (λ s, Forall (λ p, classify_exercise_from_pose p = Some (exercise s)) (poses s))
         segs ∧
  concat (poses <$> segs) `sublist_of` all_poses.
Proof.
  unfold segment_workout_into_exercises.
  destruct (segment_loop timestamps 0 all_poses _) as [st|] eqn:Hloop; [| discriminate].
  simpl. intros Hfinal.
  destruct (segment_loop_runs _ _ [] _ _ _ Hloop) as (Hrun & Hsegs & Hsub);
    [by constructor | by constructor | done |].
  simpl in Hsub.
  destruct (add_final_cases _ _ _ Hfinal) as [->|(s & -> & Hs & Hl)].
  - split; [done |]. by apply sublist_drop_tail with (segment_poses st).
  - split.
    + apply Forall_app. split; [done |]. repeat constructor.
      rewrite Hs. by rewrite Hl in Hrun.
    + rewrite fmap_app, concat_app. simpl. by rewrite app_nil_r, Hs.
Qed.

(** X13: with a timestamp for each frame, every segment the builder returns
    is a uniform run: each of its frames is classified to the segment's
    label, its frame count is the number of frames it holds, and its
    duration is its end time minus its start time. *)
Theorem segments_are_uniform_runs (all_poses : list Frame) (timestamps : list float) :
  length all_poses ≤ length timestamps →
  ∃ segs,
    segment_workout_into_exercises all_poses timestamps = Ok segs ∧
    Forall (λ s,
      Forall (λ p, classify_exercise_from_pose p = Some (exercise s)) (poses s) ∧
      frame_count s = length (poses s) ∧
      duration s = (end_time s - start_time s)%float) segs.
Proof.
  intros Hlen.
  destruct (segment_workout_inv timestamps (λ _, True) all_poses)
    as (segs & Hrun & _ & Hwf); [done | by apply Forall_forall |].
  exists segs. split; [done |].
  destruct (segment_workout_runs _ _ _ Hrun) as [Huniform _].
  rewrite Forall_forall in Huniform, Hwf. apply Forall_forall. intros s Hs.
  destruct (Hwf s Hs) as (_ & _ & _ & Hcount & Hduration). auto.
Qed.

Lemma segments_are_uniform_runs_witness :
  length upright_then_missing ≤ length twelve_seconds ∧
  ∃ segs,
    segment_workout_into_exercises upright_then_missing twelve_seconds = Ok segs ∧
    Forall (λ s,
      Forall (λ p, classify_exercise_from_pose p = Some (exercise s)) (poses s) ∧
      frame_count s = length (poses s) ∧
      duration s = (end_time s - start_time s)%float) segs.
Proof.
  assert (H : length upright_then_missing ≤ length twelve_seconds) by (vm_compute; lia).
  split; [exact H |].
  exact (segments_are_uniform_runs upright_then_missing twelve_seconds H).
Defined.

(** X14: with a timestamp for each frame, the frames of the returned
    segments, taken segment after segment, form a subsequence of the input:
    no frame is held twice or out of order, so the segments hold at most as
    many frames as the input has and there are at most n / 6 of them. *)
Theorem segments_hold_input_frames_in_order
    (all_poses : list Frame) (timestamps : list float) :
  length all_poses ≤ length timestamps →
  ∃ segs,
    segment_workout_into_exercises all_poses timestamps = Ok segs ∧
    concat (poses <$> segs) `sublist_of` all_poses ∧
    frames_held segs ≤ length all_poses ∧
    length segs ≤ length all_poses / 6.
Proof.
  intros Hlen.
  destruct (segment_workout_inv timestamps (λ _, True) all_poses)
    as (segs & Hrun & _ & Hwf); [done | by apply Forall_forall |].
  exists segs. split; [done |].
  destruct (segment_workout_runs _ _ _ Hrun) as [_ Hsub].
  split; [done |].
  assert (Hheld : frames_held segs ≤ length all_poses).
  { rewrite frames_held_concat; [by apply sublist_length |].
    eapply Forall_impl; [exact Hwf |]. by intros s (_ & _ & _ & ? & _). }
  split; [done |].
  assert (Hsix : 6 * length segs ≤ frames_held segs).
  { clear Hrun Hsub Hheld. induction Hwf as [|s segs (_ & _ & Hs & _) _ IH]; simpl; lia. }
  apply Nat.div_le_lower_bound; lia.
Qed.

Lemma segments_hold_input_frames_in_order_witness :
  length upright_then_missing ≤ length twelve_seconds ∧
  ∃ segs,
    segment_workout_into_exercises upright_then_missing twelve_seconds = Ok segs ∧
    concat (poses <$> segs) `sublist_of` upright_then_missing ∧
    frames_held segs ≤ length upright_then_missing ∧
    length segs ≤ length upright_then_missing / 6.
Proof.
  assert (H : length upright_then_missing ≤ length twelve_seconds) by (vm_compute; lia).
  split; [exact H |].
  exact (segments_hold_input_frames_in_order upright_then_missing twelve_seconds H).
Defined.

(** Frames that continue the open run are appended to it, without a look at
    the timestamps. *)
Lemma segment_loop_same_label timestamps rest i st l :
  current_exercise st = Some l →
  Forall (λ p, classify_exercise_from_pose p = Some l) rest →
  segment_loop timestamps i rest st =
  Ok {| segments := segments st; current_exercise := Some l;
        segment_start := segment_start st;
        segment_poses := segment_poses st ++ rest |}.
Proof.
  intros Hl H. revert i st Hl.
  induction H as [|p rest Hp _ IH]; intros i st Hl; simpl.
  - rewrite app_nil_r. destruct st; simpl in *. by rewrite Hl.
  - rewrite Hp, Hl. rewrite bool_decide_eq_false_2 by (by intros []).
    rewrite IH by done. simpl. by rewrite <- app_assoc.
Qed.

(** A whole sequence under one label leaves the loop as one open run from
    index 0. *)
Lemma segment_loop_one_label timestamps all_poses l :
  Forall (λ p, classify_exercise_from_pose p = Some l) all_poses →
  all_poses ≠ [] →
  segment_loop timestamps 0 all_poses
    {| segments := []; current_exercise := None;
       segment_start := 0; segment_poses := [] |} =
  Ok {| segments := []; current_exercise := Some l;
        segment_start := 0; segment_poses := all_poses |}.
Proof.
  intros H Hne. destruct H as [|p rest Hp Hrest]; [done |]. simpl.
  rewrite Hp. rewrite bool_decide_eq_true_2 by done. simpl.
  by rewrite (segment_loop_same_label timestamps rest 1 _ l).
Qed.

(** X15: a sequence of more than 5 frames that are all classified to one
    label comes back as exactly one segment: that label, all the frames,
    from the first timestamp to the last one.  Only these two timestamps
    are read, so the builder run again on a segment's own frames returns
    that segment. *)
Theorem one_label_one_segment
    (all_poses : list Frame) (timestamps : list float) (l : string) (t0 t1 : float) :
  Forall (λ p, classify_exercise_from_pose p = Some l) all_poses →
  l ≠ "" → 5 < length all_poses →
  timestamps !! 0 = Some t0 → last timestamps = Some t1 →
  segment_workout_into_exercises all_poses timestamps =
  Ok [{| exercise := l; start_time := t0; end_time := t1;
         duration := (t1 - t0)%float; poses := all_poses;
         frame_count := length all_poses |}].
Proof.
  intros Hall Hl Hlen Ht0 Ht1. unfold segment_workout_into_exercises.
  rewrite (segment_loop_one_label timestamps all_poses l Hall)
    by (intros ->; simpl in Hlen; lia).
  simpl. unfold add_final, truthy_label. simpl.
  destruct (String.eqb_spec l ""); [done |].
  destruct (Nat.ltb_spec 5 (length all_poses)); [| lia].
  unfold py_index, py_last. by rewrite Ht0, Ht1.
Qed.

Lemma one_label_one_segment_witness :
  segment_workout_into_exercises six_upright [7; 8]%float =
  Ok [{| exercise := "squat"; start_time := 7; end_time := 8;
         duration := (8 - 7)%float; poses := six_upright;
         frame_count := length six_upright |}].
Proof.
  apply one_label_one_segment; try done.
  - repeat constructor; vm_compute; reflexivity.
  - vm_compute. lia.
Defined.

(** X16: with no timestamps at all, a sequence of more than 5 frames that
    are all classified to one label makes the builder raise an
    [IndexError]. *)
Theorem one_label_no_timestamps_raises (all_poses : list Frame) (l : string) :
  Forall (λ p, classify_exercise_from_pose p = Some l) all_poses →
  l ≠ "" → 5 < length all_poses →
  segment_workout_into_exercises all_poses [] = Raise IndexError.
Proof.
  intros Hall Hl Hlen. unfold segment_workout_into_exercises.
  rewrite (segment_loop_one_label [] all_poses l Hall)
    by (intros ->; simpl in Hlen; lia).
  simpl. unfold add_final, truthy_label. simpl.
  destruct (String.eqb_spec l ""); [done |].
  by destruct (Nat.ltb_spec 5 (length all_poses)); [| lia].
Qed.

Lemma one_label_no_timestamps_raises_witness :
  segment_workout_into_exercises six_missing [] = Raise IndexError.
Proof.
  apply (one_label_no_timestamps_raises six_missing "unknown"); try done.
  - repeat constructor.
  - vm_compute. lia.
Defined.

(** Up to five frames the loop saves nothing and reads no timestamp. *)
Lemma segment_loop_short timestamps rest i st :
  segments st = [] → length (segment_poses st) ≤ i → i + length rest ≤ 5 →
  ∃ st', segment_loop timestamps i rest st = Ok st' ∧
         segments st' = [] ∧ length (segment_poses st') ≤ 5.
Proof.
  revert i st. induction rest as [|pose rest IH]; intros i st Hsegs Hrun Hlen; simpl.
  - exists st. repeat split; [done | lia].
  - simpl in Hlen.
    assert (Hsave : save_previous timestamps st i = Ok []).
    { unfold save_previous. rewrite Hsegs.
      destruct (truthy_label (current_exercise st)); [| done].
      by destruct (Nat.ltb_spec 5 (length (segment_poses st))); [lia |]. }
    case_bool_decide.
    + rewrite Hsave. simpl. apply IH; simpl; [done | lia | lia].
    + apply IH; simpl; [done | rewrite length_app; simpl; lia | lia].
Qed.

(** X17: a sequence of at most 5 frames yields no segment, whatever the
    timestamps, even none. *)
Theorem short_sequence_no_segment (all_poses : list Frame) (timestamps : list float) :
  length all_poses ≤ 5 →
  segment_workout_into_exercises all_poses timestamps = Ok [].
Proof.
  intros Hlen. unfold segment_workout_into_exercises.
  destruct (segment_loop_short timestamps all_poses 0
              {| segments := []; current_exercise := None;
                 segment_start := 0; segment_poses := [] |})
    as (st & -> & Hsegs & Hrun); [done | simpl; lia | simpl; lia |].
  simpl. unfold add_final. rewrite Hsegs.
  destruct (truthy_label (current_exercise st)); [| done].
  by destruct (Nat.ltb_spec 5 (length (segment_poses st))); [lia |].
Qed.

Lemma short_sequence_no_segment_witness :
  length (replicate 5 upright) ≤ 5 ∧
  segment_workout_into_exercises (replicate 5 upright) [] = Ok [].
Proof.
  assert (H : length (replicate 5 upright) ≤ 5) by (vm_compute; lia).
  split; [exact H | exact (short_sequence_no_segment (replicate 5 upright) [] H)].
Defined.

(** ** Session analysis *)

Lemma sum_reps_app l1 l2 : sum_reps (l1 ++ l2) = (sum_reps l1 + sum_reps l2)%Z.
Proof. unfold sum_reps. induction l1 as [|a l1 IH]; simpl; lia. Qed.

Lemma sum_reps_for_snoc label l a :
  sum_reps_for label (l ++ [a]) =
  (sum_reps_for label l + if String.eqb (sa_exercise a) label then reps_counted a else 0)%Z.
Proof.
  unfold sum_reps_for. rewrite List.filter_app, sum_reps_app. simpl.
  destruct (String.eqb (sa_exercise a) label); simpl; lia.
Qed.

(** Reading a dict after an assignment. *)
Lemma dict_get_set key value d key' :
  dict_get key' (dict_set key value d) =
  if String.eqb key key' then value else dict_get key' d.
Proof.
  induction d as [|[k v] d IH]; simpl.
  - done.
  - destruct (String.eqb_spec k key) as [->|Hk]; simpl.
    + by destruct (String.eqb key key').
    + destruct (String.eqb_spec k key') as [->|Hk'].
      * by destruct (String.eqb_spec key key'); [congruence |].
      * apply IH.
Qed.

(** The keys of a dict after an assignment: a new key goes last. *)
Lemma dict_set_keys key value d :
  (dict_set key value d).*1 = if bool_decide (key ∈ d.*1) then d.*1 else d.*1 ++ [key].
Proof.
  induction d as [|[k v] d IH]; [done |]. cbn [dict_set].
  destruct (String.eqb_spec k key) as [->|Hk]; rewrite !fmap_cons; cbn [fst].
  - rewrite bool_decide_eq_true_2; [done | by left].
  - rewrite IH. case_bool_decide as Hin.
    + rewrite bool_decide_eq_true_2; [done | by right].
    + rewrite bool_decide_eq_false_2; [done |].
      intros [?|?]%elem_of_cons; congruence.
Qed.

Section ReportProperties.

Variable np_mean : list float → float.

(** The per-segment loop: it keeps the analyses free of ['unknown'], with
    the frame count and label of a segment each, and the running total equal
    to the sum of their rep counts. *)
Lemma analyze_segments_inv (L : string → Prop) segs analyses total :
  Forall (well_formed L) segs →
  total = sum_reps analyses →
  Forall (λ a, L (sa_exercise a) ∧ sa_exercise a ≠ "unknown" ∧ 5 < sa_frame_count a ∧
               (0 ≤ reps_counted a ∧ 2 * reps_counted a ≤ Z.of_nat (sa_frame_count a))%Z ∧
               (sa_exercise a ≠ "squat" → sa_exercise a ≠ "pushup" →
                reps_counted a = 0%Z))
         analyses →
  let out := fold_left (analyze_segment np_mean) segs (analyses, total) in
  out.2 = sum_reps out.1 ∧
  Forall (λ a, L (sa_exercise a) ∧ sa_exercise a ≠ "unknown" ∧ 5 < sa_frame_count a ∧
               (0 ≤ reps_counted a ∧ 2 * reps_counted a ≤ Z.of_nat (sa_frame_count a))%Z ∧
               (sa_exercise a ≠ "squat" → sa_exercise a ≠ "pushup" →
                reps_counted a = 0%Z))
         out.1.
Proof.
  intros Hwf. revert analyses total.
  induction Hwf as [|s segs (Hl & _ & Hlong & Hcount & _) _ IH];
    intros analyses total Htotal Hgood; simpl; [done |].
  destruct (String.eqb_spec (exercise s) "unknown") as [|Hknown]; [by apply IH |].
  apply IH.
  - rewrite sum_reps_app. unfold sum_reps at 2. simpl. lia.
  - apply Forall_app. split; [done |]. repeat constructor; simpl; try done.
    + apply count_reps_bounds.
    + destruct (count_reps_bounds (poses s) (exercise s)) as [_ H2].
      pose proof (evaluable_le_valid (exercise s) (poses s)) as Hv.
      unfold valid_frames in Hv.
      pose proof (List.filter_length_le is_not_None (poses s)). lia.
    + apply count_reps_no_detector.
Qed.

(** The summary loop: the dict holds each label of the analyses once, in
    order of first appearance, with the sum of its rep counts. *)
Lemma summarize_inv analyses seen counts time :
  NoDup counts.*1 →
  (∀ label, label ∈ counts.*1 ↔ ∃ a, a ∈ seen ∧ sa_exercise a = label) →
  (∀ label, dict_get label counts = sum_reps_for label seen) →
  let out := fold_left summarize_segment analyses (counts, time) in
  NoDup out.1.*1 ∧
  (∀ label, label ∈ out.1.*1 ↔ ∃ a, a ∈ seen ++ analyses ∧ sa_exercise a = label) ∧
  (∀ label, dict_get label out.1 = sum_reps_for label (seen ++ analyses)).
Proof.
  revert seen counts time.
  induction analyses as [|a analyses IH]; intros seen counts time Hnodup Hkeys Hget; simpl.
  - by rewrite app_nil_r.
  - replace (seen ++ a :: analyses) with ((seen ++ [a]) ++ analyses)
      by (by rewrite <- app_assoc).
    apply IH.
    + rewrite dict_set_keys. case_bool_decide as Hin; [done |].
      apply NoDup_app. split; [done |]. split; [| apply NoDup_singleton].
      intros x Hx ->%list_elem_of_singleton. done.
    + intros label. rewrite dict_set_keys. split.
      * intros Hlabel.
        assert (Hcases : label ∈ counts.*1 ∨ label = sa_exercise a).
        { case_bool_decide; [by left |].
          apply elem_of_app in Hlabel as [?|?%list_elem_of_singleton]; auto. }
        destruct Hcases as [Hold| ->].
        -- apply Hkeys in Hold as (b & Hb & <-). exists b.
           split; [| done]. apply elem_of_app. by left.
        -- exists a. split; [| done]. apply elem_of_app. right. by left.
      * intros (b & [Hb| ->%list_elem_of_singleton]%elem_of_app & <-).
        -- assert (sa_exercise b ∈ counts.*1) by (apply Hkeys; eauto).
           case_bool_decide; [done |]. apply elem_of_app. by left.
        -- case_bool_decide; [done |]. apply elem_of_app. right. by left.
    + intros label. rewrite dict_get_set, sum_reps_for_snoc, <- !Hget.
      destruct (String.eqb_spec (sa_exercise a) label) as [->|]; lia.
Qed.

(** What a returned report is made of. *)
Lemma analyze_report all_poses duration frames_in_video report :
  analyze_workout_session np_mean all_poses duration frames_in_video
  = Ok (SessionReport report) →
  ∃ segs,
    Forall (well_formed (λ l, l ∈ ["squat"; "pushup"; "plank"; "standing"; "unknown"]))
           segs ∧
    (detailed_analysis report, total_reps (session_summary report))
    = fold_left (analyze_segment np_mean) segs ([], 0%Z) ∧
    (exercise_breakdown (session_summary report),
     total_exercise_time (session_summary report))
    = fold_left summarize_segment (detailed_analysis report) ([], 0%float) ∧
    exercises_performed (session_summary report)
    = (exercise_breakdown (session_summary report)).*1.
Proof.
  unfold analyze_workout_session.
  destruct (Nat.eqb (length all_poses) 0); [discriminate |].
  destruct (_ <? 10); [discriminate |].
  set (timestamps := imap _ all_poses).
  destruct (segment_workout_inv timestamps
              (λ l, l ∈ ["squat"; "pushup"; "plank"; "standing"; "unknown"]) all_poses)
    as (segs & -> & _ & Hwf).
  { unfold timestamps. by rewrite length_imap. }
  { apply Forall_forall. intros p _ l Hl.
    destruct (classify_cases p) as [H|(l' & H & Hin)]; congruence. }
  simpl.
  destruct (fold_left (analyze_segment np_mean) segs ([], 0%Z))
    as [analyses reps] eqn:E1.
  destruct (fold_left summarize_segment analyses ([], 0%float))
    as [counts time] eqn:E2.
  intros [= <-]. simpl. exists segs. rewrite E2. by repeat split.
Qed.

End ReportProperties.

Section SessionProperties.

Variable np_mean : list float → float.

(** From ten valid poses on the session analysis returns a report. *)
Lemma analyze_returns_report all_poses duration frames_in_video :
  10 ≤ valid_frames all_poses →
  ∃ report, analyze_workout_session np_mean all_poses duration frames_in_video
            = Ok (SessionReport report).
Proof.
  unfold valid_frames, analyze_workout_session. intros Hvalid.
  destruct (Nat.eqb_spec (length all_poses) 0) as [H0|_].
  { destruct all_poses; [simpl in Hvalid; lia | discriminate]. }
  destruct (Nat.ltb_spec (length (List.filter is_not_None all_poses)) 10); [lia |].
  set (timestamps := imap _ all_poses).
  destruct (segment_workout_inv timestamps (λ _, True) all_poses)
    as (segs & -> & _); [unfold timestamps; by rewrite length_imap | by apply Forall_forall |].
  simpl.
  destruct (fold_left (analyze_segment np_mean) segs ([], 0%Z)) as [analyses reps].
  destruct (fold_left summarize_segment analyses ([], 0%float)) as [counts time].
  by eexists.
Qed.


(** X19: every entry of a report's detailed analysis stems from a segment
    of more than 5 frames labelled squat, pushup, plank or standing, never
    unknown; its rep count lies between 0 and half its frame count, and is 0
    for plank and standing. *)
Theorem report_entries_are_known_exercises
    (all_poses : list Frame) (duration : float) (frames_in_video : Z) :
  10 ≤ valid_frames all_poses →
  ∃ report,
    analyze_workout_session np_mean all_poses duration frames_in_video
    = Ok (SessionReport report) ∧
    Forall (λ a,
      sa_exercise a ∈ ["squat"; "pushup"; "plank"; "standing"] ∧
      5 < sa_frame_count a ∧
      (0 ≤ reps_counted a ∧ 2 * reps_counted a ≤ Z.of_nat (sa_frame_count a))%Z ∧
      (sa_exercise a ∈ ["plank"; "standing"] → reps_counted a = 0%Z))
      (detailed_analysis report).
Proof.
  intros Hvalid.
  destruct (analyze_returns_report all_poses duration frames_in_video Hvalid)
    as [report Hreport].
  exists report. split; [done |].
  destruct (analyze_report np_mean _ _ _ _ Hreport) as (segs & Hwf & Hfold & _).
  destruct (analyze_segments_inv np_mean _ segs [] 0%Z Hwf) as [_ Hgood];
    [done | by constructor |].
  rewrite <- Hfold in Hgood. simpl in Hgood.
  eapply Forall_impl; [exact Hgood |]. simpl.
  intros a (Hl & Hknown & Hlong & Hreps & Hzero).
  split; [| split; [done | split; [done |]]].
  - rewrite !elem_of_cons, elem_of_nil in Hl.
    destruct Hl as [E|[E|[E|[E|[E|[]]]]]]; [| | | | done];
      rewrite E; apply list_elem_of_In; simpl; tauto.
  - rewrite !elem_of_cons, elem_of_nil.
    intros [E|[E|[]]]; apply Hzero; rewrite E; discriminate.
Qed.

(** X20: the total rep count of a report is the sum of the rep counts of
    its detailed analysis, and it is not negative. *)
Theorem report_total_is_sum_of_entries
    (all_poses : list Frame) (duration : float) (frames_in_video : Z) :
  10 ≤ valid_frames all_poses →
  ∃ report,
    analyze_workout_session np_mean all_poses duration frames_in_video
    = Ok (SessionReport report) ∧
    total_reps (session_summary report) = sum_reps (detailed_analysis report) ∧
    (0 ≤ total_reps (session_summary report))%Z.
Proof.
  intros Hvalid.
  destruct (analyze_returns_report all_poses duration frames_in_video Hvalid)
    as [report Hreport].
  exists report. split; [done |].
  destruct (analyze_report np_mean _ _ _ _ Hreport) as (segs & Hwf & Hfold & _).
  destruct (analyze_segments_inv np_mean _ segs [] 0%Z Hwf) as [Hsum Hgood];
    [done | by constructor |].
  rewrite <- Hfold in Hsum, Hgood. simpl in Hsum, Hgood.
  split; [done |]. rewrite Hsum. clear Hsum Hfold.
  induction Hgood as [|a analyses (_ & _ & _ & [H0 _] & _) _ IH]; [done |].
  unfold sum_reps in *. simpl. lia.
Qed.

(** X21: the exercise breakdown of a report holds each label of the
    detailed analysis exactly once, with the sum of the rep counts of the
    entries under that label, and 0 is read for every other label; the list
    of exercises performed is the list of its keys. *)
Theorem report_breakdown_sums_by_label
    (all_poses : list Frame) (duration : float) (frames_in_video : Z) :
  10 ≤ valid_frames all_poses →
  ∃ report,
    analyze_workout_session np_mean all_poses duration frames_in_video
    = Ok (SessionReport report) ∧
    exercises_performed (session_summary report)
    = (exercise_breakdown (session_summary report)).*1 ∧
    NoDup (exercises_performed (session_summary report)) ∧
    (∀ label, label ∈ exercises_performed (session_summary report) ↔
              ∃ a, a ∈ detailed_analysis report ∧ sa_exercise a = label) ∧
    (∀ label, dict_get label (exercise_breakdown (session_summary report))
              = sum_reps_for label (detailed_analysis report)).
Proof.
  intros Hvalid.
  destruct (analyze_returns_report all_poses duration frames_in_video Hvalid)
    as [report Hreport].
  exists report. split; [done |].
  destruct (analyze_report np_mean _ _ _ _ Hreport) as (segs & _ & _ & Hfold & Hkeys).
  destruct (summarize_inv (detailed_analysis report) [] [] 0%float)
    as (Hnodup & Hin & Hget).
  { constructor. }
  { intros label. split; [by intros ?%elem_of_nil | by intros (? & ?%elem_of_nil & _)]. }
  { done. }
  rewrite <- Hfold in Hnodup, Hin, Hget. simpl in Hnodup, Hin, Hget.
  rewrite Hkeys. split; [done |]. split; [done |]. split; done.
Qed.

End SessionProperties.

Lemma report_entries_are_known_exercises_witness :
  10 ≤ valid_frames (replicate 12 upright) ∧
  ∃ report,
    analyze_workout_session mean_in_order (replicate 12 upright) 12 360
    = Ok (SessionReport report) ∧
    Forall (λ a,
      sa_exercise a ∈ ["squat"; "pushup"; "plank"; "standing"] ∧
      5 < sa_frame_count a ∧
      (0 ≤ reps_counted a ∧ 2 * reps_counted a ≤ Z.of_nat (sa_frame_count a))%Z ∧
      (sa_exercise a ∈ ["plank"; "standing"] → reps_counted a = 0%Z))
      (detailed_analysis report).
Proof.
  assert (H : 10 ≤ valid_frames (replicate 12 upright)) by (vm_compute; lia).
  split; [exact H |].
  exact (report_entries_are_known_exercises mean_in_order (replicate 12 upright) 12 360 H).
Defined.

Lemma report_total_is_sum_of_entries_witness :
  10 ≤ valid_frames (replicate 12 upright) ∧
  ∃ report,
    analyze_workout_session mean_in_order (replicate 12 upright) 12 360
    = Ok (SessionReport report) ∧
    total_reps (session_summary report) = sum_reps (detailed_analysis report) ∧
    (0 ≤ total_reps (session_summary report))%Z.
Proof.
  assert (H : 10 ≤ valid_frames (replicate 12 upright)) by (vm_compute; lia).
  split; [exact H |].
  exact (report_total_is_sum_of_entries mean_in_order (replicate 12 upright) 12 360 H).
Defined.

Lemma report_breakdown_sums_by_label_witness :
  10 ≤ valid_frames (replicate 12 upright) ∧
  ∃ report,
    analyze_workout_session mean_in_order (replicate 12 upright) 12 360
    = Ok (SessionReport report) ∧
    exercises_performed (session_summary report)
    = (exercise_breakdown (session_summary report)).*1 ∧
    NoDup (exercises_performed (session_summary report)) ∧
    (∀ label, label ∈ exercises_performed (session_summary report) ↔
              ∃ a, a ∈ detailed_analysis report ∧ sa_exercise a = label) ∧
    (∀ label, dict_get label (exercise_breakdown (session_summary report))
              = sum_reps_for label (detailed_analysis report)).
Proof.
  assert (H : 10 ≤ valid_frames (replicate 12 upright)) by (vm_compute; lia).
  split; [exact H |].
  exact (report_breakdown_sums_by_label mean_in_order (replicate 12 upright) 12 360 H).
Defined.

(** ** Frame sampling *)

(** The next multiple of the rate. *)
Lemma next_multiple (k n rate : nat) : k < n → k * rate + rate ≤ n * rate.
Proof.
  intros H. pose proof (Nat.mul_le_mono_r (S k) n rate H). simpl in *. lia.
Qed.

(** The sampling loop keeps, of the frames seen so far, those at the
    multiples of the rate: [frame_count] frames seen, the last kept one at
    index [(length frames - 1) * rate]. *)
Lemma sample_loop_inv {A} (rate : nat) (video seen frames : list A) :
  0 < rate →
  length seen ≤ length frames * rate < length seen + rate →
  (∀ k, k < length frames → frames !! k = seen !! (k * rate)) →
  ∃ frames',
    sample_loop (Z.of_nat rate) video frames (length seen)
    = Some (frames', length (seen ++ video)) ∧
    length (seen ++ video) ≤ length frames' * rate < length (seen ++ video) + rate ∧
    (∀ k, k < length frames' → frames' !! k = (seen ++ video) !! (k * rate)).
Proof.
  intros Hrate. revert seen frames.
  induction video as [|frame video IH]; intros seen frames Hlen Hkept; simpl.
  - rewrite app_nil_r. by exists frames.
  - destruct (Z.eqb_spec (Z.of_nat rate) 0) as [|_]; [lia |].
    replace (seen ++ frame :: video) with ((seen ++ [frame]) ++ video)
      by (by rewrite <- app_assoc).
    replace (S (length seen)) with (length (seen ++ [frame]))
      by (rewrite length_app; simpl; lia).
    rewrite <- Nat2Z.inj_mod.
    assert (Hhit : length seen mod rate = 0 ↔ length frames * rate = length seen).
    { split.
      - intros Hmod. pose proof (Nat.div_mod_eq (length seen) rate) as Hdiv.
        rewrite Hmod, Nat.add_0_r in Hdiv.
        destruct (Nat.lt_trichotomy (length frames) (length seen / rate)) as [Hlt|[->|Hgt]].
        + pose proof (next_multiple _ _ rate Hlt). lia.
        + lia.
        + pose proof (next_multiple _ _ rate Hgt). lia.
      - intros <-. apply Nat.Div0.mod_mul. }
    destruct (Z.eqb_spec (Z.of_nat (length seen mod rate)) 0) as [Hzero|Hnonzero].
    + assert (Hfull : length frames * rate = length seen) by (apply Hhit; lia).
      apply IH.
      * rewrite !length_app. simpl. lia.
      * intros k Hk. rewrite length_app in Hk. simpl in Hk.
        destruct (decide (k = length frames)) as [->|].
        -- rewrite lookup_app_r by lia. rewrite Nat.sub_diag.
           rewrite lookup_app_r by lia.
           by replace (length frames * rate - length seen) with 0 by lia.
        -- assert (Hlt : k < length frames) by lia.
           pose proof (next_multiple _ _ rate Hlt).
           rewrite !lookup_app_l by lia. by apply Hkept.
    + assert (Hpart : length frames * rate ≠ length seen) by (rewrite <- Hhit; lia).
      apply IH.
      * rewrite !length_app. simpl. lia.
      * intros k Hk. pose proof (next_multiple _ _ rate Hk).
        rewrite lookup_app_l by lia. by apply Hkept.
Qed.

(** X22: with a positive sample rate r the extraction never fails: it
    reports the number n of frames of the video and keeps ceil(n / r)
    frames, the k-th kept frame being frame k * r of the video. *)
Theorem frames_sampled_at_multiples {A} (video : list A) (fps : float) (rate : nat) :
  0 < rate →
  ∃ frames total_duration,
    extract_frames_from_video video fps (Z.of_nat rate)
    = Some (frames, total_duration, length video) ∧
    length frames = (length video + rate - 1) / rate ∧
    ∀ k, frames !! k = video !! (k * rate).
Proof.
  intros Hrate. unfold extract_frames_from_video.
  destruct (sample_loop_inv rate video [] [] Hrate) as (frames & Hloop & Hlen & Hkept).
  { simpl. lia. }
  { simpl. lia. }
  simpl in Hloop, Hlen, Hkept. rewrite Hloop. simpl.
  eexists frames, _. split; [reflexivity |]. split.
  - apply (Nat.div_unique _ rate _ (length video + rate - 1 - length frames * rate)); lia.
  - intros k. destruct (Nat.lt_ge_cases k (length frames)) as [Hk|Hk]; [by apply Hkept |].
    rewrite !lookup_ge_None_2; [done | | lia].
    pose proof (Nat.mul_le_mono_r _ _ rate Hk). lia.
Qed.

Lemma frames_sampled_at_multiples_witness :
  ∃ frames total_duration,
    extract_frames_from_video (seq 0 100) 25 (Z.of_nat 30)
    = Some (frames, total_duration, length (seq 0 100)) ∧
    length frames = (length (seq 0 100) + 30 - 1) / 30 ∧
    ∀ k, frames !! k = seq 0 100 !! (k * 30).
Proof. apply (frames_sampled_at_multiples (seq 0 100) 25 30). lia. Defined.

(** With a sample rate of 0 the extraction raises (a
    [ZeroDivisionError]) as soon as the video has a frame; on an empty video
    it returns no frame and a frame count of 0. *)
Theorem zero_sample_rate {A} (video : list A) (fps : float) :
  (video ≠ [] → extract_frames_from_video video fps 0 = None) ∧
  (video = [] → ∃ total_duration,
     extract_frames_from_video video fps 0 = Some ([], total_duration, 0)).
Proof.
  unfold extract_frames_from_video. split.
  - by destruct video.
  - intros ->. simpl. by eexists.
Qed.

(** ** Landmark extraction *)

(** The loop over a map without repeated names: a name outside the map is
    left as it was, a name inside it is read from its index. *)
Lemma extract_fold_other (found : list landmark) m (acc : Pose) name :
  name ∉ m.*1 →
  fold_left (λ landmarks (entry : string * nat),
               match found !! entry.2 with
               | Some l => <[entry.1 := l]> landmarks
               | None => landmarks
               end) m acc !! name = acc !! name.
Proof.
  revert acc. induction m as [|[n0 i0] m IH]; intros acc Hname; simpl; [done |].
  rewrite fmap_cons in Hname. apply not_elem_of_cons in Hname as [Hne Hname].
  rewrite IH by done. simpl in Hne.
  destruct (found !! i0); [by rewrite lookup_insert_ne | done].
Qed.

Lemma extract_fold_entry (found : list landmark) m (acc : Pose) name idx :
  NoDup m.*1 → (name, idx) ∈ m → acc !! name = None →
  fold_left (λ landmarks (entry : string * nat),
               match found !! entry.2 with
               | Some l => <[entry.1 := l]> landmarks
               | None => landmarks
               end) m acc !! name = found !! idx.
Proof.
  revert acc. induction m as [|[n0 i0] m IH]; intros acc Hnodup Hin Hacc.
  - by apply elem_of_nil in Hin.
  - rewrite fmap_cons in Hnodup. apply NoDup_cons in Hnodup as [Hfresh Hnodup].
    simpl. apply elem_of_cons in Hin as [[= -> ->]|Hin].
    + rewrite extract_fold_other by done.
      destruct (found !! i0); [by rewrite lookup_insert_eq | done].
    + apply IH; [done | done |].
      assert (name ≠ n0).
      { intros ->. apply Hfresh. simpl.
        apply list_elem_of_fmap. by exists (n0, idx). }
      destruct (found !! i0); [by rewrite lookup_insert_ne | done].
Qed.

Lemma landmark_map_names : NoDup landmark_map.*1.
Proof. by apply (bool_decide_unpack (NoDup landmark_map.*1)). Qed.

(** X23: the pose dict built from the model's landmark list holds, under
    each of the 13 names of the landmark map, the landmark at that name's
    index, exactly when the list is long enough, and holds nothing under any
    other name; without a detection the frame is the no-observation
    marker. *)
Theorem detected_pose_reads_landmark_map (found : list landmark) :
  detect_pose_in_frame None = None ∧
  ∃ pose,
    detect_pose_in_frame (Some found) = Some pose ∧
    (∀ name idx, (name, idx) ∈ landmark_map → pose !! name = found !! idx) ∧
    (∀ name, name ∉ landmark_map.*1 → pose !! name = None).
Proof.
  split; [done |]. exists (extract_landmarks found). split; [done |]. split.
  - intros name idx Hin. unfold extract_landmarks.
    by apply extract_fold_entry; [apply landmark_map_names | |].
  - intros name Hname. unfold extract_landmarks.
    by rewrite extract_fold_other.
Qed.

(** X24: a detected pose is classified ['unknown'] exactly when the model's
    landmark list has fewer than 27 entries, so that the right knee (index
    26) is out of range; on the model's full list of 33 landmarks the
    classifier never answers ['unknown']. *)
Theorem detected_pose_unknown_iff_short (found : list landmark) :
  classify_exercise_from_pose (detect_pose_in_frame (Some found)) = Some "unknown"
  ↔ length found < 27.
Proof.
  rewrite classify_unknown_cases. simpl.
  assert (Hget : ∀ name idx, (name, idx) ∈ landmark_map →
                 extract_landmarks found !! name = found !! idx).
  { intros name idx Hin. unfold extract_landmarks.
    by apply extract_fold_entry; [apply landmark_map_names | |]. }
  split.
  - intros [Hempty|(key & Hkey & Hnone)].
    + apply bool_decide_eq_true in Hempty.
      destruct (Nat.lt_ge_cases (length found) 27) as [|Hlong]; [done |].
      assert (Hnose : extract_landmarks found !! "nose" = found !! 0)
        by (apply Hget; apply list_elem_of_In; simpl; tauto).
      rewrite Hempty, lookup_empty in Hnose. symmetry in Hnose.
      apply lookup_ge_None in Hnose. lia.
    + unfold classifier_required in Hkey.
      rewrite !elem_of_cons, elem_of_nil in Hkey.
      destruct Hkey as [->|[->|[->|[->|[->|[->|[]]]]]]];
        (erewrite Hget in Hnone by (apply list_elem_of_In; simpl; tauto));
        apply lookup_ge_None in Hnone; lia.
  - intros Hshort. right. exists "right_knee". split.
    + apply list_elem_of_In. simpl. tauto.
    + erewrite Hget by (apply list_elem_of_In; simpl; tauto).
      apply lookup_ge_None. lia.
Qed.

Lemma zero_sample_rate_witness :
  extract_frames_from_video [upright; lowered] 25 0 = None ∧
  ∃ total_duration,
    extract_frames_from_video (@nil Frame) 25 0 = Some ([], total_duration, 0).
Proof.
  destruct (zero_sample_rate [upright; lowered] 25) as [Hraise _].
  destruct (zero_sample_rate (@nil Frame) 25) as [_ Hempty].
  split; [by apply Hraise | by apply Hempty].
Defined.
